(** * The Polymarket new-event bot ([new_market_bot.py]) in Rocq

    A shallow embedding of the polling cycle of the bot
    (fetch, filter, rank, format, publish, record) together with the
    properties its specification states about it.

    Python values are modelled as they come out of [json.loads]; Python
    strings are sequences of code points (so that [len] counts an emoji
    once); a call that may raise returns a [result].  The clock, the
    HTTP answer and the Twitter API are inputs of the functions that use
    them.  Log output and the state file are not modelled, except that a
    log line whose arguments can raise is evaluated. *)

From Stdlib Require Import ZArith NArith Lia Bool Ascii String.
From Stdlib Require Import Floats.SpecFloat.
From stdpp Require Import base option list gmap.

Set Warnings "-register-all".
Local Open Scope Z_scope.

(* ===================================================================== *)
(** * Python strings *)
(* ===================================================================== *)

(** A Python [str] is a sequence of Unicode code points. *)
Definition pystr : Type := list N.

(** An ASCII literal of the source as a [pystr]. *)
Fixpoint lit (s : string) : pystr :=
  match s with
  | EmptyString => []
  | String a r => N_of_ascii a :: lit r
  end.

(** The newline of the source's ["\n"]. *)
Definition nl : pystr := [10%N].

(** [a == b] on strings. *)
Definition str_eqb (a b : pystr) : bool := bool_decide (a = b).

(** [a < b] on strings: lexicographic on code points, a proper prefix is
    smaller. *)
Fixpoint str_ltb (a b : pystr) : bool :=
  match a, b with
  | [], [] => false
  | [], _ :: _ => true
  | _ :: _, [] => false
  | x :: a', y :: b' =>
      if (x <? y)%N then true
      else if (y <? x)%N then false
      else str_ltb a' b'
  end.

(** [a >= b] on strings. *)
Definition str_geb (a b : pystr) : bool := negb (str_ltb a b).

(** [s.startswith(p)]. *)
Fixpoint startswith (s p : pystr) : bool :=
  match p, s with
  | [], _ => true
  | _ :: _, [] => false
  | y :: p', x :: s' => (x =? y)%N && startswith s' p'
  end.

(** [s.endswith(p)]. *)
Definition endswith (s p : pystr) : bool := startswith (rev s) (rev p).

(** [p in s] for strings: [p] occurs as a contiguous substring. *)
Fixpoint contains (s p : pystr) : bool :=
  startswith s p ||
  match s with
  | [] => false
  | _ :: s' => contains s' p
  end.

(** [s[:-1]]. *)
Definition drop_last (s : pystr) : pystr := take (length s - 1)%nat s.

(** [l[-n:]] for a positive literal [n]: the last [n] items, or all of
    them when there are fewer. *)
Definition last_n {A} (n : nat) (l : list A) : list A :=
  drop (length l - n)%nat l.

(** Decimal digits of a natural number, most significant first. *)
Fixpoint digits_fuel (fuel : nat) (n : N) (acc : pystr) : pystr :=
  match fuel with
  | O => acc
  | S fuel' =>
      let acc' := (48 + n mod 10)%N :: acc in
      if (n <? 10)%N then acc' else digits_fuel fuel' (n / 10)%N acc'
  end.

Definition digits (n : N) : pystr := digits_fuel (S (N.to_nat (N.log2 n))) n [].

(** [str(z)] for a Python [int]. *)
Definition str_of_Z (z : Z) : pystr :=
  match z with
  | Zneg p => lit "-" ++ digits (Npos p)
  | _ => digits (Z.to_N z)
  end.

(** [n] rendered with at least [w] digits, zero padded on the left
    ([%02d] and the like). *)
Definition pad0 (w : nat) (n : N) : pystr :=
  let d := digits n in replicate (w - length d)%nat 48%N ++ d.

(* ===================================================================== *)
(** * Python values and exceptions *)
(* ===================================================================== *)

(** A Python [float] is an IEEE 754 binary64 number, in the canonical
    form of [valid_binary 53 1024] (the form every conversion below
    produces, and the one [SFcompare] orders by value). *)
Definition float : Type := spec_float.

(** The values [json.loads] produces.  A JSON object keeps its items in
    order and has distinct keys; [dict_get] reads the item with the
    key. *)
Inductive pyval : Type :=
  | PNone
  | PBool (b : bool)
  | PInt (z : Z)
  | PFloat (f : float)
  | PStr (s : pystr)
  | PList (l : list pyval)
  | PDict (d : list (pystr * pyval)).

Definition dict : Type := list (pystr * pyval).

(** An event of the upstream API is a JSON object. *)
Definition event : Type := dict.

(** The exceptions the modelled code can meet. *)
Inductive exn : Type :=
  | TypeError
  | ValueError
  | AttributeError
  | OverflowError.

(** The outcome of a call: a value, or an exception that propagates. *)
Inductive result (A : Type) : Type :=
  | Ok (a : A)
  | Raise (e : exn).
Arguments Ok {A} a.
Arguments Raise {A} e.

Definition bind {A B} (r : result A) (k : A -> result B) : result B :=
  match r with
  | Ok a => k a
  | Raise e => Raise e
  end.

Notation "'let*' x ':=' r 'in' k" := (bind r (fun x => k))
  (at level 10, x name, r at level 100, k at level 200).

(** Run [f] on every item, left to right, stopping at the first
    exception. *)
Fixpoint map_result {A B} (f : A -> result B) (l : list A) : result (list B) :=
  match l with
  | [] => Ok []
  | a :: l' =>
      let* b := f a in
      let* bs := map_result f l' in
      Ok (b :: bs)
  end.

(** [d.get(k)]: [None] in Python is [PNone] here, an absent key gives
    the default. *)
Fixpoint dict_get (d : dict) (k : pystr) (default : pyval) : pyval :=
  match d with
  | [] => default
  | (k', v) :: d' => if str_eqb k' k then v else dict_get d' k default
  end.

(** Truth value of a value, as [if v], [not v] and [v or w] test it. *)
Definition truthy (v : pyval) : bool :=
  match v with
  | PNone => false
  | PBool b => b
  | PInt z => negb (z =? 0)
  | PFloat (S754_zero _) => false
  | PFloat _ => true
  | PStr s => negb (bool_decide (s = []))
  | PList l => negb (bool_decide (length l = 0%nat))
  | PDict d => negb (bool_decide (length d = 0%nat))
  end.

(** [v or w]. *)
Definition py_or (v w : pyval) : pyval := if truthy v then v else w.

(* ===================================================================== *)
(** * Floats *)
(* ===================================================================== *)

Definition prec : Z := 53.
Definition emax : Z := 1024.

(** [float(z)] for an [int]: the nearest binary64, ties to even;
    [OverflowError] when [z] is too large. *)
Definition float_of_Z (z : Z) : result float :=
  match binary_normalize prec emax z 0 false with
  | S754_infinity _ => Raise OverflowError
  | f => Ok f
  end.

(** Exact comparison of a float with an [int], as Python compares mixed
    numbers: [Some c] when [f] is a number, [None] for NaN. *)
Definition compare_float_Z (f : float) (z : Z) : option comparison :=
  match f with
  | S754_nan => None
  | S754_infinity s => Some (if s then Lt else Gt)
  | S754_zero _ => Some (0 ?= z)
  | S754_finite s m e =>
      let sm := if s then Zneg m else Zpos m in
      Some (if 0 <=? e then (sm * 2 ^ e ?= z) else (sm ?= z * 2 ^ (- e)))
  end.

(** [f < z] and [f >= z]; both are false on NaN. *)
Definition float_lt_Z (f : float) (z : Z) : bool :=
  match compare_float_Z f z with Some Lt => true | _ => false end.

Definition float_ge_Z (f : float) (z : Z) : bool :=
  match compare_float_Z f z with Some (Eq | Gt) => true | _ => false end.

(** [a < b] on floats (false when either is NaN). *)
Definition float_ltb (a b : float) : bool := SFltb a b.

Definition is_nan (f : float) : bool :=
  match f with S754_nan => true | _ => false end.

(** [format(f, ".pf")]: [f] in fixed notation with [p] fractional
    digits, the exact binary value rounded half to even. *)
Definition round_half_even (num den : Z) : Z :=
  let q := num / den in
  match 2 * (num mod den) ?= den with
  | Lt => q
  | Gt => q + 1
  | Eq => if Z.even q then q else q + 1
  end.

Definition fixed_digits (p : nat) (n : Z) : pystr :=
  let d := pad0 (S p) (Z.to_N n) in
  match p with
  | O => d
  | _ => take (length d - p)%nat d ++ lit "." ++ drop (length d - p)%nat d
  end.

Definition minus_sign (s : bool) : pystr := if s then lit "-" else [].

Definition format_fixed (p : nat) (f : float) : pystr :=
  match f with
  | S754_nan => lit "nan"
  | S754_infinity s => minus_sign s ++ lit "inf"
  | S754_zero s => minus_sign s ++ fixed_digits p 0
  | S754_finite s m e =>
      let scaled := Zpos m * 10 ^ Z.of_nat p in
      minus_sign s ++
      fixed_digits p (if 0 <=? e then scaled * 2 ^ e
                      else round_half_even scaled (2 ^ (- e)))
  end.

(** [f / z] for a float and a small [int] constant: the constant is
    converted exactly, the quotient is correctly rounded. *)
Definition float_div_Z (f : float) (z : Z) : float :=
  SFdiv prec emax f (binary_normalize prec emax z 0 false).

(* ===================================================================== *)
(** * Dates and times *)
(* ===================================================================== *)

(** A [datetime] is a count of microseconds since 1970-01-01T00:00:00:
    of UTC when it carries an offset (aware), of its own wall clock when
    it does not (naive). *)
Inductive datetime : Type :=
  | Naive (us : Z)
  | Aware (utc_us : Z).

Definition us_per_second : Z := 1000000.
Definition us_per_day : Z := 86400 * us_per_second.

(** Days since 1970-01-01 of a proleptic Gregorian date, and back. *)
Definition days_from_civil (y m d : Z) : Z :=
  let y' := if m <=? 2 then y - 1 else y in
  let era := y' / 400 in
  let yoe := y' - era * 400 in
  let doy := (153 * (if 2 <? m then m - 3 else m + 9) + 2) / 5 + d - 1 in
  let doe := yoe * 365 + yoe / 4 - yoe / 100 + doy in
  era * 146097 + doe - 719468.

Definition civil_from_days (z : Z) : Z * Z * Z :=
  let z' := z + 719468 in
  let era := z' / 146097 in
  let doe := z' - era * 146097 in
  let yoe := (doe - doe / 1460 + doe / 36524 - doe / 146096) / 365 in
  let doy := doe - (365 * yoe + yoe / 4 - yoe / 100) in
  let mp := (5 * doy + 2) / 153 in
  let d := doy - (153 * mp + 2) / 5 + 1 in
  let m := if mp <? 10 then mp + 3 else mp - 9 in
  let y := yoe + era * 400 in
  (if m <=? 2 then y + 1 else y, m, d).

(** [datetime.min] and [datetime.max] (years 1 to 9999). *)
Definition datetime_min : Z := days_from_civil 1 1 1 * us_per_day.
Definition datetime_max : Z := days_from_civil 10000 1 1 * us_per_day - 1.

(** ["%Y-%m-%dT%H:%M:%S"] of an instant; the microseconds are dropped.
    The year is padded to four digits (the C library decides that for
    years below 1000, which a cutoff taken from the clock never is). *)
Definition format_seconds (us : Z) : pystr :=
  let '(y, m, d) := civil_from_days (us / us_per_day) in
  let s := (us mod us_per_day) / us_per_second in
  pad0 4 (Z.to_N y) ++ lit "-" ++ pad0 2 (Z.to_N m) ++ lit "-" ++
  pad0 2 (Z.to_N d) ++ lit "T" ++ pad0 2 (Z.to_N (s / 3600)) ++ lit ":" ++
  pad0 2 (Z.to_N (s / 60 mod 60)) ++ lit ":" ++ pad0 2 (Z.to_N (s mod 60)).

(** [dt.strftime("%Y-%m-%dT%H:%M:%SZ")]. *)
Definition strftime_Z (us : Z) : pystr := format_seconds us ++ lit "Z".

(** [dt.isoformat()] of an aware UTC datetime: the fraction is printed
    only when it is not zero. *)
Definition isoformat (us : Z) : pystr :=
  let frac := us mod us_per_second in
  format_seconds us ++
  (if frac =? 0 then [] else lit "." ++ pad0 6 (Z.to_N frac)) ++
  lit "+00:00".

(** [a < b] on datetimes: [TypeError] between a naive and an aware
    one. *)
Definition datetime_lt (a b : datetime) : result bool :=
  match a, b with
  | Naive x, Naive y => Ok (x <? y)
  | Aware x, Aware y => Ok (x <? y)
  | _, _ => Raise TypeError
  end.

(* ===================================================================== *)
(** * Library functions taken as given *)
(* ===================================================================== *)

(** The library functions whose result depends on Unicode tables or on
    the interpreter's version.  The program is modelled over any
    implementation of them. *)
Class Builtins : Type := {
  (** [s.lower()] *)
  str_lower : pystr -> pystr;
  (** [float(s)] for a [str]; [None] is [ValueError] *)
  float_of_str : pystr -> option float;
  (** [str(v)] for a float, a list or a dict *)
  repr : pyval -> pystr;
  (** [datetime.fromisoformat(s)]; [None] is [ValueError] *)
  fromisoformat : pystr -> option datetime
}.

Section Conversions.
Context {B : Builtins}.

(** [float(v)]. *)
Definition py_float (v : pyval) : result float :=
  match v with
  | PNone => Raise TypeError
  | PBool b => float_of_Z (if b then 1 else 0)
  | PInt z => float_of_Z z
  | PFloat f => Ok f
  | PStr s =>
      match float_of_str s with
      | Some f => Ok f
      | None => Raise ValueError
      end
  | PList _ | PDict _ => Raise TypeError
  end.

(** [str(v)], also what an f-string puts for [{v}]. *)
Definition py_str (v : pyval) : pystr :=
  match v with
  | PNone => lit "None"
  | PBool true => lit "True"
  | PBool false => lit "False"
  | PInt z => str_of_Z z
  | PStr s => s
  | PFloat _ | PList _ | PDict _ => repr v
  end.

(** [float(event.get(k, 0) or 0)]. *)
Definition number_field (e : event) (k : string) : result float :=
  py_float (py_or (dict_get e (lit k) (PInt 0)) (PInt 0)).

End Conversions.

(* ===================================================================== *)
(** * Configuration and state *)
(* ===================================================================== *)

Definition LOOKBACK_MINUTES : Z := 10.

(** Minimum total volume to tweet ($0 = no filter). *)
Definition MIN_VOLUME : Z := 0.

Definition SPORTS_SERIES : list pystr :=
  map lit
    ["nba"; "nfl"; "nhl"; "mlb"; "mls"; "wnba";
     "nba-2026"; "nfl-2025"; "nhl-2026"; "cfb"; "cfb-2025";
     "premier-league"; "premier-league-2025"; "bundesliga"; "bundesliga-2025";
     "la-liga"; "serie-a"; "ligue-1"; "champions-league"; "europa-league";
     "ucl-2025"; "uel-2025"]%string.

(** The state document, with the schema [load_state] starts from and
    [save_state] writes. *)
Record state : Type := {
  tweeted_event_ids : list pystr;
  total_tweets_sent : Z;
  last_poll_time : option pystr
}.

(** The state [load_state] returns when there is no state file. *)
Definition default_state : state :=
  {| tweeted_event_ids := []; total_tweets_sent := 0; last_poll_time := None |}.

(* ===================================================================== *)
(** * Gamma API: [fetch_recent_events] *)
(* ===================================================================== *)

(** What the HTTP request and [json.loads] yield: an exception of the
    network layer, an exception of the decoder, or the decoded body. *)
Inductive response : Type :=
  | NetworkError
  | MalformedBody
  | Body (v : pyval).

(** [datetime.now(timezone.utc) - timedelta(minutes=lookback_minutes)];
    a result outside [datetime]'s range is an [OverflowError]. *)
Definition cutoff_time (now lookback_minutes : Z) : result Z :=
  let c := now - lookback_minutes * 60 * us_per_second in
  if (datetime_min <=? c) && (c <=? datetime_max) then Ok c
  else Raise OverflowError.

(** The loop over the decoded list: keep while
    [event.get("createdAt", "") >= cutoff_str], stop at the first event
    that fails the test.  An item without [get] and a [createdAt] that
    is not a string raise. *)
Fixpoint scan_recent (cutoff_str : pystr) (events : list pyval)
  : result (list event) :=
  match events with
  | [] => Ok []
  | PDict ev :: rest =>
      match dict_get ev (lit "createdAt") (PStr []) with
      | PStr created_at =>
          if str_geb created_at cutoff_str then
            let* recent := scan_recent cutoff_str rest in
            Ok (ev :: recent)
          else Ok []
      | _ => Raise TypeError
      end
  | _ :: _ => Raise AttributeError
  end.

(** [fetch_recent_events(lookback_minutes)] at time [now], the request
    being answered by [resp].  Everything after the cutoff computation
    runs under [except Exception], which returns the empty list. *)
Definition fetch_recent_events (now : Z) (resp : response)
    (lookback_minutes : Z) : result (list event) :=
  let* cutoff := cutoff_time now lookback_minutes in
  let cutoff_str := strftime_Z cutoff in
  Ok match resp with
     | NetworkError | MalformedBody => []
     | Body (PList events) =>
         match scan_recent cutoff_str events with
         | Ok recent => recent
         | Raise _ => []
         end
     | Body _ => []
     end.

(* ===================================================================== *)
(** * Filters *)
(* ===================================================================== *)

Section Program.
Context {B : Builtins}.

(** [(v or "").lower()]. *)
Definition lower_or_empty (v : pyval) : result pystr :=
  match py_or v (PStr []) with
  | PStr s => Ok (str_lower s)
  | _ => Raise AttributeError
  end.

(** The items a [for] loop over [v] visits. *)
Definition iter_items (v : pyval) : result (list pyval) :=
  match v with
  | PList l => Ok l
  | PDict d => Ok (map (fun kv => PStr (fst kv)) d)
  | PStr s => Ok (map (fun c => PStr [c]) s)
  | _ => Raise TypeError
  end.

Definition sports_keywords : list pystr :=
  map lit ["nba"; "nfl"; "nhl"; "mlb"; "soccer"; "football"; "basketball"]%string.

Definition sports_patterns : list pystr :=
  map lit [" vs "; " vs. "; "o/u "; "spread:"; "moneyline"; "over/under"]%string.

(** The loop over [series] of [is_sports_event]. *)
Fixpoint series_is_sports (series : list pyval) : result bool :=
  match series with
  | [] => Ok false
  | PDict s :: rest =>
      let* slug := lower_or_empty (dict_get s (lit "slug") PNone) in
      if existsb (str_eqb slug) SPORTS_SERIES then Ok true
      else if existsb (contains slug) sports_keywords then Ok true
      else series_is_sports rest
  | _ :: _ => Raise AttributeError
  end.

Definition is_sports_event (ev : event) : result bool :=
  let* series := iter_items (dict_get ev (lit "series") (PList [])) in
  let* hit := series_is_sports series in
  if hit then Ok true
  else
    let* title := lower_or_empty (dict_get ev (lit "title") PNone) in
    Ok (existsb (contains title) sports_patterns).

Definition is_crypto_spam (ev : event) : result bool :=
  let* title := lower_or_empty (dict_get ev (lit "title") PNone) in
  Ok (contains title (lit "up or down")).

(** [if s.endswith('Z'): s = s[:-1] + '+00:00']. *)
Definition with_utc_offset (s : pystr) : pystr :=
  if endswith s (lit "Z") then drop_last s ++ lit "+00:00" else s.

(** The body of the [try] block of [is_expired] for a truthy [end_date]:
    [endswith] needs a string, [fromisoformat] a well-formed one, and
    the comparison with the aware [now] an aware [end_dt]. *)
Definition expired_try (now : Z) (end_date : pyval) : result bool :=
  match end_date with
  | PStr s =>
      match fromisoformat (with_utc_offset s) with
      | Some end_dt => datetime_lt end_dt (Aware now)
      | None => Raise ValueError
      end
  | _ => Raise AttributeError
  end.

(** [is_expired(event)] at time [now]; [except Exception] turns every
    exception of the block into [False]. *)
Definition is_expired (now : Z) (ev : event) : bool :=
  let end_date := dict_get ev (lit "endDate") PNone in
  if negb (truthy end_date) then false
  else
    match expired_try now end_date with
    | Ok b => b
    | Raise _ => false
    end.

(** [str(event.get("id", ""))]. *)
Definition event_id (ev : event) : pystr :=
  py_str (dict_get ev (lit "id") (PStr [])).

(** [event.get("title", "")[:n]], which the log lines evaluate: only a
    string and a list can be sliced. *)
Definition title_slice (n : nat) (ev : event) : result pyval :=
  match dict_get ev (lit "title") (PStr []) with
  | PStr s => Ok (PStr (take n s))
  | PList l => Ok (PList (take n l))
  | _ => Raise TypeError
  end.

(** The loop of [filter_events] with the threshold [min_volume];
    [clock i] is the time [is_expired] reads when the loop is at the
    event of index [i].  The log line of a skip for sports, spam, expiry
    or volume formats [event.get('title', '')[:40]] before it goes on. *)
Fixpoint filter_loop (min_volume : Z) (tweeted_ids : gset pystr)
    (clock : nat -> Z) (i : nat) (events : list event)
  : result (list event) :=
  match events with
  | [] => Ok []
  | ev :: rest =>
      let continue := filter_loop min_volume tweeted_ids clock (S i) rest in
      let skip := let* logged := title_slice 40 ev in continue in
      if bool_decide (event_id ev ∈ tweeted_ids) then continue
      else
        let* sports := is_sports_event ev in
        if sports then skip
        else
          let* spam := is_crypto_spam ev in
          if spam then skip
          else if is_expired (clock i) ev then skip
          else
            let* volume := number_field ev "volume" in
            if float_lt_Z volume min_volume then skip
            else
              let* filtered := continue in
              Ok (ev :: filtered)
  end.

Definition filter_events_min (min_volume : Z) (clock : nat -> Z)
    (events : list event) (st : state) : result (list event) :=
  filter_loop min_volume (list_to_set (tweeted_event_ids st)) clock 0 events.

Definition filter_events : (nat -> Z) -> list event -> state -> result (list event) :=
  filter_events_min MIN_VOLUME.

(* ------------------------------------------------------------------- *)
(** * Selection: [find_best_event] *)
(* ------------------------------------------------------------------- *)

(** [list.sort(key=..., reverse=True)] on items paired with their
    keys: a stable sort with every comparison reversed.  An item moves
    in front of the items whose key is strictly smaller and stays
    behind the others, so items with equal keys keep their order.  On
    keys that are numbers every stable sort yields this list; a NaN key
    compares false with everything and is outside this model. *)
Fixpoint insert_desc {A} (x : float * A) (sorted : list (float * A))
  : list (float * A) :=
  match sorted with
  | [] => [x]
  | y :: rest =>
      if float_ltb (fst x) (fst y) then y :: insert_desc x rest
      else x :: sorted
  end.

Definition sort_desc {A} (l : list (float * A)) : list (float * A) :=
  foldr insert_desc [] l.

(** The sort key [float(e.get("volume", 0) or 0)]. *)
Definition volume_key (ev : event) : result float := number_field ev "volume".

(** [find_best_event(events)].  [sort] evaluates the key of every item
    before it compares any. *)
Definition find_best_event (events : list event) : result (option event) :=
  match events with
  | [] => Ok None
  | _ =>
      let* keys := map_result volume_key events in
      Ok (head (map snd (sort_desc (zip keys events))))
  end.

(* ------------------------------------------------------------------- *)
(** * Tweet formatting *)
(* ------------------------------------------------------------------- *)

(** [format_number(num)]: K/M suffix. *)
Definition format_number (num : float) : pystr :=
  if float_ge_Z num 1000000 then
    lit "$" ++ format_fixed 1 (float_div_Z num 1000000) ++ lit "M"
  else if float_ge_Z num 1000 then
    lit "$" ++ format_fixed 0 (float_div_Z num 1000) ++ lit "K"
  else lit "$" ++ format_fixed 0 num.

(** The two closing lines of the template. *)
Definition footer_cta : pystr :=
  [128302%N] ++ lit " Join @4Castylabs waitlist now: www.4casty.com".

Definition footer_short : pystr :=
  [128302%N] ++ lit " Join 4Casty Terminal waitlist: www.4casty.com".

(** The f-string of [format_tweet] for a title text and a footer. *)
Definition render (title vol_str liq_str url footer : pystr) : pystr :=
  [128680%N] ++ lit " New Polymarket Event!" ++ nl ++ nl ++
  title ++ nl ++ nl ++
  [128202%N] ++ lit " Volume: " ++ vol_str ++ nl ++
  [128176%N] ++ lit " Liquidity: " ++ liq_str ++ nl ++ nl ++
  lit "Trade " ++ [128073%N] ++ lit " " ++ url ++ nl ++ nl ++
  footer.

(** [len(v)]. *)
Definition py_len (v : pyval) : result nat :=
  match v with
  | PStr s => Ok (length s)
  | PList l => Ok (length l)
  | PDict d => Ok (length d)
  | _ => Raise TypeError
  end.

(** [title[:n] + "..."] for a positive [n]: only a string can be
    sliced and then extended by a string (a list fails at [+], a dict
    at the slice). *)
Definition truncate_title (title : pyval) (n : nat) : result pystr :=
  match title with
  | PStr s => Ok (take n s ++ lit "...")
  | _ => Raise TypeError
  end.

Definition format_tweet (ev : event) : result pystr :=
  let title := py_or (dict_get ev (lit "title") PNone) (PStr (lit "New Event")) in
  let slug := py_or (dict_get ev (lit "slug") PNone) (dict_get ev (lit "id") PNone) in
  let url := lit "https://polymarket.com/event/" ++ py_str slug in
  let* volume := number_field ev "volume" in
  let* liquidity := number_field ev "liquidity" in
  let vol_str := format_number volume in
  let liq_str := format_number liquidity in
  let tweet := render (py_str title) vol_str liq_str url footer_cta in
  if (280 <? length tweet)%nat then
    let* title_len := py_len title in
    let max_title_len := Z.of_nat title_len - (Z.of_nat (length tweet) - 280) - 3 in
    if 20 <? max_title_len then
      let* title' := truncate_title title (Z.to_nat max_title_len) in
      Ok (take 280 (render title' vol_str liq_str url footer_short))
    else Ok (take 280 tweet)
  else Ok (take 280 tweet).

(* ------------------------------------------------------------------- *)
(** * Image handling and the Twitter API *)
(* ------------------------------------------------------------------- *)

(** [get_event_image_url(event)]. *)
Definition get_event_image_url (ev : event) : option pystr :=
  let pick (field : string) :=
    match dict_get ev (lit field) PNone with
    | PStr url =>
        if negb (bool_decide (url = [])) && startswith url (lit "http")
        then Some url else None
    | _ => None
    end in
  match pick "image"%string with
  | Some url => Some url
  | None =>
      match pick "coverImage"%string with
      | Some url => Some url
      | None => pick "icon"%string
      end
  end.

(** How the [try] block around [create_tweet] ends: it runs to its end,
    or one of the three handlers catches an exception. *)
Inductive tweet_outcome : Type :=
  | Sent
  | TooManyRequests
  | TwitterServerError
  | OtherException.

(** The outside world of the publisher: [download_image] and
    [upload_image] return [None] on any failure. *)
Record twitter : Type := {
  download_image : pystr -> option (list N);
  upload_image : list N -> option pystr;
  create_tweet : pystr -> option (list pystr) -> tweet_outcome
}.

(** The image handling of [send_tweet_with_image]: the media ids the
    tweet is sent with, [None] when there is no image, no media client,
    or the download or the upload fails. *)
Definition media_ids_for (tw : twitter) (v1_api : bool)
    (image_url : option pystr) : option (list pystr) :=
  match image_url with
  | Some url =>
      if negb (bool_decide (url = [])) && v1_api then
        match download_image tw url with
        | Some image_data =>
            if bool_decide (image_data = []) then None
            else
              match upload_image tw image_data with
              | Some media_id =>
                  if bool_decide (media_id = []) then None
                  else Some [media_id]
              | None => None
              end
        | None => None
        end
      else None
  | None => None
  end.

(** [send_tweet_with_image(v2_client, v1_api, text, image_url)]: the
    returned flag and the seconds slept.  [v2_client] and [v1_api] say
    whether the client is configured; without [v2_client] the call is a
    dry run. *)
Definition send_tweet_with_image (tw : twitter) (v2_client v1_api : bool)
    (text : pystr) (image_url : option pystr) : bool * Z :=
  if negb v2_client then (true, 0)
  else
    match create_tweet tw text (media_ids_for tw v1_api image_url) with
    | Sent => (true, 0)
    | TooManyRequests => (false, 15 * 60)
    | TwitterServerError => (false, 0)
    | OtherException => (false, 0)
    end.

(* ------------------------------------------------------------------- *)
(** * The polling iteration: [run_once] *)
(* ------------------------------------------------------------------- *)

(** What one iteration observes of the outside world. *)
Record cycle : Type := {
  fetch_time : Z;            (** the clock when the cutoff is taken *)
  fetch_response : response; (** the answer of the events endpoint *)
  filter_clock : nat -> Z;   (** the clock during [filter_events] *)
  poll_time : Z;             (** the clock when the poll is recorded *)
  api : twitter;
  v2_client : bool;
  v1_api : bool
}.

(** [state["last_poll_time"] = datetime.now(timezone.utc).isoformat()]. *)
Definition record_poll (c : cycle) (st : state) : state :=
  {| tweeted_event_ids := tweeted_event_ids st;
     total_tweets_sent := total_tweets_sent st;
     last_poll_time := Some (isoformat (poll_time c)) |}.

(** The block under [if success:]. *)
Definition mark_tweeted (st : state) (id : pystr) : state :=
  {| tweeted_event_ids := last_n 500 (tweeted_event_ids st ++ [id]);
     total_tweets_sent := total_tweets_sent st + 1;
     last_poll_time := last_poll_time st |}.

(** Where the first part of [run_once] ends: at one of the early
    returns, or at the call of [send_tweet_with_image]. *)
Inductive plan : Type :=
  | NoEvents
  | NoQualityEvents
  | NoEventSelected
  | Publish (event_id : pystr) (tweet_text : pystr) (image_url : option pystr).

(** [run_once] up to the publish call. *)
Definition plan_cycle (c : cycle) (st : state) : result plan :=
  let* events := fetch_recent_events (fetch_time c) (fetch_response c)
                   LOOKBACK_MINUTES in
  if bool_decide (events = []) then Ok NoEvents
  else
    let* quality_events := filter_events (filter_clock c) events st in
    if bool_decide (quality_events = []) then Ok NoQualityEvents
    else
      let* best := find_best_event quality_events in
      match best with
      | None => Ok NoEventSelected
      | Some best_event =>
          if negb (truthy (PDict best_event)) then Ok NoEventSelected
          else
            let id := event_id best_event in
            let* title := title_slice 50 best_event in
            let* volume := number_field best_event "volume" in
            let image_url := get_event_image_url best_event in
            let* tweet_text := format_tweet best_event in
            Ok (Publish id tweet_text image_url)
      end.

(** [run_once(v2_client, v1_api, state)]. *)
Definition run_once (c : cycle) (st : state) : result state :=
  let* p := plan_cycle c st in
  match p with
  | NoEvents | NoQualityEvents => Ok (record_poll c st)
  | NoEventSelected => Ok st
  | Publish id tweet_text image_url =>
      let success :=
        fst (send_tweet_with_image (api c) (v2_client c) (v1_api c)
               tweet_text image_url) in
      let st' := if success then mark_tweeted st id else st in
      Ok (record_poll c st')
  end.

End Program.

(* ===================================================================== *)
(** * A reference implementation of the library functions on ASCII text *)
(* ===================================================================== *)

(** The examples below run the program with these functions.  Each is
    CPython's function on the inputs its doc comment names and says
    where it stops short.  The theorems hold for every [Builtins]. *)
Module Reference.

Definition is_digit (c : N) : bool := ((48 <=? c) && (c <=? 57))%N.

Definition is_space (c : N) : bool := ((c =? 32) || ((9 <=? c) && (c <=? 13)))%N.

(** [s.lower()] of ASCII text; other code points are left as they are. *)
Definition ascii_lower (s : pystr) : pystr :=
  map (fun c => if ((65 <=? c) && (c <=? 90))%N then (c + 32)%N else c) s.

Fixpoint lstrip (s : pystr) : pystr :=
  match s with
  | c :: s' => if is_space c then lstrip s' else s
  | [] => []
  end.

Definition strip (s : pystr) : pystr := rev (lstrip (rev (lstrip s))).

(** A run of digits, single underscores allowed between two digits:
    the number read so far, how many digits, and what follows. *)
Fixpoint read_digits (s : pystr) (acc : Z) (n : nat) : Z * nat * pystr :=
  match s with
  | c :: s' =>
      if is_digit c then read_digits s' (10 * acc + Z.of_N (c - 48)) (S n)
      else if (c =? 95)%N && negb (bool_decide (n = 0%nat)) then
        match s' with
        | c' :: _ => if is_digit c' then read_digits s' acc n else (acc, n, s)
        | [] => (acc, n, s)
        end
      else (acc, n, s)
  | [] => (acc, n, [])
  end.

Definition read_sign (s : pystr) : bool * pystr :=
  match s with
  | 45%N :: s' => (true, s')
  | 43%N :: s' => (false, s')
  | _ => (false, s)
  end.

(** The binary64 nearest to [m * 10 ^ e10], ties to even. *)
Definition decimal_to_float (neg : bool) (m e10 : Z) : float :=
  if m =? 0 then S754_zero neg
  else if 0 <=? e10 then
    binary_normalize prec emax (if neg then - (m * 10 ^ e10) else m * 10 ^ e10) 0 false
  else
    let '(q, e, l) := SFdiv_core_binary prec emax m 0 (10 ^ (- e10)) 0 in
    binary_round_aux prec emax neg q e l.

(** [float(s)] for ASCII text: surrounding white space, a sign, then
    [inf], [infinity], [nan] or a decimal literal with optional fraction
    and exponent.  Digits and white space outside ASCII, which CPython
    also accepts, are rejected here. *)
Definition float_of_ascii (s : pystr) : option float :=
  let '(neg, s2) := read_sign (strip s) in
  let w := ascii_lower s2 in
  if bool_decide (w = lit "inf") || bool_decide (w = lit "infinity") then
    Some (S754_infinity neg)
  else if bool_decide (w = lit "nan") then Some S754_nan
  else
    let '(ip, ni, s3) := read_digits s2 0 0 in
    let '(m, nf, s4) :=
      match s3 with
      | 46%N :: r => read_digits r ip 0
      | _ => (ip, 0%nat, s3)
      end in
    if bool_decide ((ni + nf)%nat = 0%nat) then None
    else
      match s4 with
      | [] => Some (decimal_to_float neg m (- Z.of_nat nf))
      | c :: r =>
          if (c =? 101)%N || (c =? 69)%N then
            let '(eneg, r1) := read_sign r in
            let '(ev, ne, r2) := read_digits r1 0 0 in
            if bool_decide (ne = 0%nat) || negb (bool_decide (r2 = [])) then None
            else Some (decimal_to_float neg m
                         ((if eneg then - ev else ev) - Z.of_nat nf))
          else None
      end.

(** [str(f)] for a float with an integral value below [10 ^ 16], for
    infinities and for NaN.  Every other value (a float with a fraction,
    a list, a dict) gets the placeholder [<?>]: no example formats one. *)
Definition repr_ascii (v : pyval) : pystr :=
  match v with
  | PFloat S754_nan => lit "nan"
  | PFloat (S754_infinity s) => minus_sign s ++ lit "inf"
  | PFloat (S754_zero s) => minus_sign s ++ lit "0.0"
  | PFloat (S754_finite s m e) =>
      if (0 <=? e) && (Zpos m * 2 ^ e <? 10 ^ 16) then
        minus_sign s ++ digits (Z.to_N (Zpos m * 2 ^ e)) ++ lit ".0"
      else if (e <? 0) && (Zpos m mod 2 ^ (- e) =? 0) && (Zpos m / 2 ^ (- e) <? 10 ^ 16) then
        minus_sign s ++ digits (Z.to_N (Zpos m / 2 ^ (- e))) ++ lit ".0"
      else lit "<?>"
  | _ => lit "<?>"
  end.

(** Exactly [n] digits. *)
Fixpoint read_fixed (n : nat) (s : pystr) (acc : Z) : option (Z * pystr) :=
  match n with
  | O => Some (acc, s)
  | S n' =>
      match s with
      | c :: s' =>
          if is_digit c then read_fixed n' s' (10 * acc + Z.of_N (c - 48))
          else None
      | [] => None
      end
  end.

Definition expect (c : N) (s : pystr) : option pystr :=
  match s with
  | c' :: s' => if (c =? c')%N then Some s' else None
  | [] => None
  end.

Definition days_in_month (y m : Z) : Z :=
  days_from_civil (if m =? 12 then y + 1 else y) (if m =? 12 then 1 else m + 1) 1
  - days_from_civil y m 1.

(** [YYYY-MM-DD] at the head of [s]: the day number and what follows. *)
Definition read_date (s : pystr) : option (Z * pystr) :=
  '(y, s) ← read_fixed 4 s 0;
  s ← expect 45 s;
  '(m, s) ← read_fixed 2 s 0;
  s ← expect 45 s;
  '(d, s) ← read_fixed 2 s 0;
  if (1 <=? y) && (1 <=? m) && (m <=? 12) && (1 <=? d) && (d <=? days_in_month y m)
  then Some (days_from_civil y m d, s) else None.

(** [HH:MM:SS], optionally followed by [.fff] or [.ffffff]: the
    microseconds since midnight and what follows. *)
Definition read_time (s : pystr) : option (Z * pystr) :=
  '(h, s) ← read_fixed 2 s 0;
  s ← expect 58 s;
  '(mi, s) ← read_fixed 2 s 0;
  s ← expect 58 s;
  '(sec, s) ← read_fixed 2 s 0;
  if (h <=? 23) && (mi <=? 59) && (sec <=? 59) then
    let whole := ((h * 60 + mi) * 60 + sec) * us_per_second in
    match s with
    | 46%N :: r =>
        match read_fixed 6 r 0 with
        | Some (f, r') => Some (whole + f, r')
        | None =>
            '(f, r') ← read_fixed 3 r 0;
            Some (whole + f * 1000, r')
        end
    | _ => Some (whole, s)
    end
  else None.

(** The offset [+HH:MM] or [-HH:MM] in microseconds, up to the end of
    the text. *)
Definition read_offset (s : pystr) : option Z :=
  match s with
  | sign :: r =>
      if (sign =? 43)%N || (sign =? 45)%N then
        '(h, r) ← read_fixed 2 r 0;
        r ← expect 58 r;
        '(mi, r) ← read_fixed 2 r 0;
        if (h <=? 23) && (mi <=? 59) && bool_decide (r = []) then
          let off := (h * 60 + mi) * 60 * us_per_second in
          Some (if (sign =? 45)%N then - off else off)
        else None
      else None
  | [] => None
  end.

(** [datetime.fromisoformat(s)] for the forms every CPython from 3.7 on
    reads alike: [YYYY-MM-DD], and [YYYY-MM-DD] followed by [T] or a
    space, [HH:MM:SS], an optional fraction of 3 or 6 digits and an
    optional offset [+HH:MM] or [-HH:MM].  Other forms, some of which
    newer versions accept, are rejected here. *)
Definition fromisoformat_ascii (s : pystr) : option datetime :=
  '(day, s) ← read_date s;
  match s with
  | [] => Some (Naive (day * us_per_day))
  | sep :: s =>
      if (sep =? 84)%N || (sep =? 32)%N then
        '(t, s) ← read_time s;
        let local := day * us_per_day + t in
        match s with
        | [] => Some (Naive local)
        | _ => off ← read_offset s; Some (Aware (local - off))
        end
      else None
  end.

#[export] Instance reference_builtins : Builtins := {|
  str_lower := ascii_lower;
  float_of_str := float_of_ascii;
  repr := repr_ascii;
  fromisoformat := fromisoformat_ascii
|}.

End Reference.

(* ===================================================================== *)
(** * Notions of the specification *)
(* ===================================================================== *)

(** The first item whose key no other key exceeds, computed from the
    right. *)
Fixpoint first_max {A} (l : list (float * A)) : option (float * A) :=
  match l with
  | [] => None
  | x :: l' =>
      match first_max l' with
      | None => Some x
      | Some y => if float_ltb (fst x) (fst y) then Some y else Some x
      end
  end.

(** The volume the specification gives an event: the [volume] field
    parsed as a number, 0 when it is missing or invalid. *)
Definition spec_volume `{Builtins} (ev : event) : float :=
  match volume_key ev with
  | Ok f => f
  | Raise _ => S754_zero false
  end.

(** What the specification's [selectBest] returns: the first event of
    maximal [spec_volume], none for the empty list. *)
Definition spec_select_best `{Builtins} (events : list event) : option event :=
  snd <$> first_max (zip (map spec_volume events) events).

(** The raw [createdAt] of an event when it is a string, the empty
    string when the field is missing. *)
Definition created_at_text (ev : event) : option pystr :=
  match dict_get ev (lit "createdAt") (PStr []) with
  | PStr s => Some s
  | _ => None
  end.

(** The prefix of the events whose raw [createdAt] is not below
    [cutoff_str] in the order of strings. *)
Fixpoint string_prefix (cutoff_str : pystr) (events : list event) : list event :=
  match events with
  | [] => []
  | ev :: rest =>
      match created_at_text ev with
      | Some s =>
          if str_geb s cutoff_str then ev :: string_prefix cutoff_str rest
          else []
      | None => []
      end
  end.

(** The creation time of an event: the instant its [createdAt] denotes. *)
Definition creation_time `{Builtins} (ev : event) : option Z :=
  match dict_get ev (lit "createdAt") PNone with
  | PStr s =>
      match fromisoformat (with_utc_offset s) with
      | Some (Aware t) => Some t
      | _ => None
      end
  | _ => None
  end.

(** The specification's [fetchRecentEvents] on the decoded list: the
    prefix up to, and without, the first event whose creation time is
    older than [cutoff]. *)
Fixpoint recent_prefix `{Builtins} (cutoff : Z) (events : list event)
  : list event :=
  match events with
  | [] => []
  | ev :: rest =>
      match creation_time ev with
      | Some t => if t <? cutoff then [] else ev :: recent_prefix cutoff rest
      | None => ev :: recent_prefix cutoff rest
      end
  end.

(** The instant a datetime denotes, a naive one being read as UTC. *)
Definition instant (dt : datetime) : Z :=
  match dt with
  | Naive t => t
  | Aware t => t
  end.

(** The specification's [isExpired]: [endDate] is present, parseable,
    and strictly before the current time. *)
Definition spec_expired `{Builtins} (now : Z) (ev : event) : Prop :=
  exists s dt,
    dict_get ev (lit "endDate") PNone = PStr s /\ s <> [] /\
    fromisoformat (with_utc_offset s) = Some dt /\ instant dt < now.

(** What [filter_events] checks of an event at time [now], once the
    checks have all run without raising. *)
Definition passes `{Builtins} (min_volume : Z) (ids : gset pystr) (now : Z)
    (ev : event) : Prop :=
  (event_id ev ∉ ids) /\
  is_sports_event ev = Ok false /\
  is_crypto_spam ev = Ok false /\
  is_expired now ev = false /\
  exists v, volume_key ev = Ok v /\ float_lt_Z v min_volume = false.

(* ===================================================================== *)
(** * Sample data *)
(* ===================================================================== *)

Module Sample.

(** 2025-11-04T09:40:00.500000Z, and a clock that stands there. *)
Definition now : Z := 1762249200500000.
Definition clock (i : nat) : Z := now.

Definition fresh_state : state := default_state.

(** A state in which event [b] has been announced. *)
Definition state_b : state :=
  {| tweeted_event_ids := [lit "b"]; total_tweets_sent := 1;
     last_poll_time := None |}.

(** [{"id": id, "title": title, "volume": volume}]. *)
Definition market (id title : string) (volume : pyval) : event :=
  [(lit "id", PStr (lit id)); (lit "title", PStr (lit title));
   (lit "volume", volume)].

(** 10.0, 30.0 and 50.0. *)
Definition f10 : float := S754_finite false 5629499534213120 (-49).
Definition f30 : float := S754_finite false 8444249301319680 (-48).
Definition f50 : float := S754_finite false 7036874417766400 (-47).

Definition ev10 : event := market "a" "Alpha" (PInt 10).
Definition ev50 : event := market "b" "Beta" (PInt 50).
Definition ev30 : event := market "c" "Gamma" (PInt 30).
Definition ev50' : event := market "d" "Delta" (PFloat f50).
Definition ev_na : event := market "e" "Epsilon" (PStr (lit "N/A")).
Definition ev_no_volume : event :=
  [(lit "id", PStr (lit "f")); (lit "title", PStr (lit "Zeta"))].
Definition ev_negative : event := market "g" "Eta" (PInt (-1)).

(** [{"id": id, "title": title, "createdAt": created_at}]. *)
Definition created (id title created_at : string) : event :=
  [(lit "id", PStr (lit id)); (lit "title", PStr (lit title));
   (lit "createdAt", PStr (lit created_at))].

Definition ev_0935 : event := created "m" "Mu" "2025-11-04T09:35:00Z".
Definition ev_0934 : event := created "n" "Nu" "2025-11-04T09:34:00Z".
Definition ev_0920 : event := created "o" "Omicron" "2025-11-04T09:20:00Z".
Definition ev_undated : event :=
  [(lit "id", PStr (lit "p")); (lit "title", PStr (lit "Pi"))].

(** Created a quarter of a second after, and half a second before, the
    cutoff 09:30:00.5 of a fetch at [now]. *)
Definition ev_just_after : event :=
  created "q" "Rho" "2025-11-04T09:30:00.749576Z".
Definition ev_just_before : event := created "r" "Sigma" "2025-11-04T09:30:00Z".

(** Two events of the last ten minutes: a basketball game of volume
    5000 and an untagged market of volume 1000. *)
Definition ev_game : event :=
  [(lit "id", PStr (lit "s")); (lit "title", PStr (lit "Finals game 7"));
   (lit "slug", PStr (lit "finals-game-7"));
   (lit "createdAt", PStr (lit "2025-11-04T09:36:00Z"));
   (lit "series", PList [PDict [(lit "slug", PStr (lit "nba"))]]);
   (lit "volume", PInt 5000)].

Definition ev_market : event :=
  [(lit "id", PStr (lit "t")); (lit "title", PStr (lit "Rate cut in December?"));
   (lit "slug", PStr (lit "rate-cut-december"));
   (lit "createdAt", PStr (lit "2025-11-04T09:35:00Z"));
   (lit "volume", PInt 1000)].

(** A Twitter API whose [create_tweet] always ends in [o]. *)
Definition api_ending (o : tweet_outcome) : twitter :=
  {| download_image := fun _ => None;
     upload_image := fun _ => None;
     create_tweet := fun _ _ => o |}.

(** An iteration at [now] that fetches the two events and publishes
    with a configured client to [api_ending o]. *)
Definition cycle_ending (o : tweet_outcome) : cycle :=
  {| fetch_time := now;
     fetch_response := Body (PList [PDict ev_game; PDict ev_market]);
     filter_clock := clock;
     poll_time := now + 2 * us_per_second;
     api := api_ending o;
     v2_client := true;
     v1_api := true |}.

(** A state that holds 500 announced ids, ["0"] to ["499"]. *)
Definition full_state : state :=
  {| tweeted_event_ids := map str_of_Z (seqZ 0 500);
     total_tweets_sent := 500;
     last_poll_time := None |}.

(** Events that ended on 2020-01-01, the end written with and without
    a UTC designator. *)
Definition ev_ended : event :=
  [(lit "id", PStr (lit "j")); (lit "endDate", PStr (lit "2020-01-01T00:00:00Z"))].
Definition ev_ended_naive : event :=
  [(lit "id", PStr (lit "k")); (lit "endDate", PStr (lit "2020-01-01T00:00:00"))].

(** A title of 270 characters under a short slug, and a short title
    under a slug of 300 characters. *)
Definition long_title : pystr := concat (replicate 30 (lit "Will it? ")).

Definition ev_long : event :=
  [(lit "id", PStr (lit "h")); (lit "title", PStr long_title);
   (lit "slug", PStr (lit "long-title")); (lit "volume", PInt 2500);
   (lit "liquidity", PInt 1500000)].

Definition long_slug : pystr := replicate 300 115%N.

Definition ev_tight : event :=
  [(lit "id", PStr (lit "i")); (lit "title", PStr (lit "Short title"));
   (lit "slug", PStr long_slug); (lit "volume", PInt 500)].

(** A title that is a number, under the slug of 300 characters. *)
Definition ev_numeric_title : event :=
  [(lit "id", PStr (lit "k")); (lit "title", PInt 7);
   (lit "slug", PStr long_slug); (lit "volume", PInt 500)].

End Sample.


(* ===================================================================== *)
(** * Twitter clients: [get_twitter_clients] *)
(* ===================================================================== *)

(** What [get_twitter_clients] reads: whether [tweepy] was imported, the
    process environment, and whether the two client constructors run
    without an exception. *)
Record client_setup : Type := {
  TWEEPY_AVAILABLE : bool;
  environ : gmap pystr pystr;
  clients_build : bool
}.

(** [os.environ.get(name)] is truthy: the variable is set and not
    empty. *)
Definition credential_set (env : gmap pystr pystr) (name : string) : bool :=
  match env !! lit name with
  | Some v => negb (bool_decide (v = []))
  | None => false
  end.

(** [get_twitter_clients()]: whether [v2_client] and [v1_api] are
    clients ([true]) or [None] ([false]). *)
Definition get_twitter_clients (s : client_setup) : bool * bool :=
  if negb (TWEEPY_AVAILABLE s) then (false, false)
  else if negb (credential_set (environ s) "X_API_KEY" &&
                credential_set (environ s) "X_API_SECRET" &&
                credential_set (environ s) "X_ACCESS_TOKEN" &&
                credential_set (environ s) "X_ACCESS_SECRET")
  then (false, false)
  else if clients_build s then (true, true)
  else (false, false).

(* ===================================================================== *)
(** * The polling loop of [main] *)
(* ===================================================================== *)

Section Loop.
Context {B : Builtins}.

(** An iteration as [main] runs it, with the clients it holds. *)
Definition with_clients (clients : bool * bool) (c : cycle) : cycle :=
  {| fetch_time := fetch_time c;
     fetch_response := fetch_response c;
     filter_clock := filter_clock c;
     poll_time := poll_time c;
     api := api c;
     v2_client := fst clients;
     v1_api := snd clients |}.

(** One turn of the [while True] loop: an exception of [run_once] is
    logged and [state] keeps its value ([run_once] writes to the state
    only after its last call that can raise). *)
Definition poll (c : cycle) (st : state) : state :=
  match run_once c st with
  | Ok st' => st'
  | Raise _ => st
  end.

(** The state after the turns of the loop that observe [cycles]. *)
Fixpoint poll_loop (cycles : list cycle) (st : state) : state :=
  match cycles with
  | [] => st
  | c :: rest => poll_loop rest (poll c st)
  end.

(** [main()] from the loaded state [st] through its first turns. *)
Definition main (s : client_setup) (st : state) (cycles : list cycle) : state :=
  poll_loop (map (with_clients (get_twitter_clients s)) cycles) st.

End Loop.

(* ===================================================================== *)
(** * The wrapper [run_bot.py]: loading [.env] *)
(* ===================================================================== *)

Section DotEnv.

(** [c.isspace()] for a character, the test [str.strip()] applies. *)
Variable isspace : N -> bool.

Fixpoint py_lstrip (s : pystr) : pystr :=
  match s with
  | c :: r => if isspace c then py_lstrip r else s
  | [] => []
  end.

Definition py_rstrip (s : pystr) : pystr := rev (py_lstrip (rev s)).

(** [s.strip()]. *)
Definition py_strip (s : pystr) : pystr := py_rstrip (py_lstrip s).

(** [s.split(sep, 1)] when [sep in s]: the text before the first [sep]
    and the text after it. *)
Fixpoint split_first (sep : N) (s : pystr) : option (pystr * pystr) :=
  match s with
  | [] => None
  | c :: r =>
      if (c =? sep)%N then Some ([], r)
      else
        match split_first sep r with
        | Some (k, v) => Some (c :: k, v)
        | None => None
        end
  end.

(** [os.environ[key] = value] (CPython 3.9 and later on POSIX): an
    empty name and a NUL character in the name or the value raise. *)
Definition environ_set (env : gmap pystr pystr) (key value : pystr)
  : option (gmap pystr pystr) :=
  if bool_decide (key = []) || bool_decide (0%N ∈ key)
     || bool_decide (0%N ∈ value)
  then None
  else Some (<[key := value]> env).

(** The body of the loop over the lines of [.env]. *)
Definition load_env_line (env : gmap pystr pystr) (raw : pystr)
  : option (gmap pystr pystr) :=
  let line := py_strip raw in
  if negb (bool_decide (line = [])) && negb (startswith line (lit "#"))
     && bool_decide (61%N ∈ line)
  then
    match split_first 61 line with
    | Some (key, value) => environ_set env (py_strip key) (py_strip value)
    | None => Some env
    end
  else Some env.

Fixpoint load_env_lines (lines : list pystr) (env : gmap pystr pystr)
  : option (gmap pystr pystr) :=
  match lines with
  | [] => Some env
  | raw :: rest =>
      match load_env_line env raw with
      | Some env' => load_env_lines rest env'
      | None => None
      end
  end.

(** The wrapper up to the import of the bot: [env_file] is the lines of
    [.env] when the file exists. *)
Definition load_env (env_file : option (list pystr)) (env : gmap pystr pystr)
  : option (gmap pystr pystr) :=
  match env_file with
  | Some lines => load_env_lines lines env
  | None => Some env
  end.

End DotEnv.

(** [run_bot.py]: load [.env] into the environment, then run [main]. *)
Definition run_bot `{Builtins} (isspace : N -> bool)
    (env_file : option (list pystr)) (s : client_setup) (st : state)
    (cycles : list cycle) : option state :=
  match load_env isspace env_file (environ s) with
  | Some env' =>
      Some (main {| TWEEPY_AVAILABLE := TWEEPY_AVAILABLE s;
                    environ := env';
                    clients_build := clients_build s |} st cycles)
  | None => None
  end.

(* ===================================================================== *)
(** * Notions used by the further properties *)
(* ===================================================================== *)

(** An event's raw [createdAt] is a string that is not below
    [cutoff_str] in the order of strings. *)
Definition lexically_recent (cutoff_str : pystr) (ev : event) : Prop :=
  exists s, created_at_text ev = Some s /\ str_geb s cutoff_str = true.

(** An item of the response list at which the scan of
    [fetch_recent_events] raises: it is not an object, or its
    [createdAt] is not a string. *)
Definition malformed_item (v : pyval) : bool :=
  match v with
  | PDict ev =>
      match created_at_text ev with
      | Some _ => false
      | None => true
      end
  | _ => true
  end.

(** The verdict of one turn of the loop of [filter_events] on an event
    examined at time [now]: kept, left out, or an exception. *)
Definition verdict `{Builtins} (min_volume : Z) (ids : gset pystr) (now : Z)
    (ev : event) : result bool :=
  let skip := let* logged := title_slice 40 ev in Ok false in
  if bool_decide (event_id ev ∈ ids) then Ok false
  else
    let* sports := is_sports_event ev in
    if sports then skip
    else
      let* spam := is_crypto_spam ev in
      if spam then skip
      else if is_expired now ev then skip
      else
        let* volume := number_field ev "volume" in
        if float_lt_Z volume min_volume then skip
        else Ok true.

(** The first two lines of every announcement. *)
Definition header : pystr :=
  [128680%N] ++ lit " New Polymarket Event!" ++ nl ++ nl.

(** A field value [get_event_image_url] accepts: a string that starts
    with [http]. *)
Definition image_value (v : pyval) (url : pystr) : Prop :=
  v = PStr url /\ startswith url (lit "http") = true.



Section DotEnvNotions.
Variable isspace : N -> bool.

(** Every character of [ws] is white space. *)
Definition blank (ws : pystr) : Prop := Forall (fun c => isspace c = true) ws.

(** [s] neither starts nor ends with white space. *)
Definition trimmed (s : pystr) : Prop :=
  (forall c, head s = Some c -> isspace c = false) /\
  (forall c, last s = Some c -> isspace c = false).

(** A line of [.env] that the loop passes over: after stripping it is
    empty, starts with [#], or holds no [=]. *)
Definition ignorable (raw : pystr) : bool :=
  let line := py_strip isspace raw in
  bool_decide (line = []) || startswith line (lit "#")
  || negb (bool_decide (61%N ∈ line)).

End DotEnvNotions.

(* ===================================================================== *)
(** * More sample data *)
(* ===================================================================== *)

Module Fixture.

(** An event whose [createdAt] is [null], and one whose [series] is
    [null]. *)
Definition ev_null_created : event :=
  [(lit "id", PStr (lit "u")); (lit "createdAt", PNone)].

Definition ev_null_series : event :=
  [(lit "id", PStr (lit "v")); (lit "title", PStr (lit "Upsilon"));
   (lit "series", PNone); (lit "volume", PInt 5)].

(** A state in which event [t] has been announced. *)
Definition state_t : state :=
  {| tweeted_event_ids := [lit "t"]; total_tweets_sent := 1;
     last_poll_time := None |}.

(** The announcement of [Sample.ev_market]. *)
Definition market_text : pystr :=
  render (lit "Rate cut in December?") (lit "$1K") (lit "$0")
    (lit "https://polymarket.com/event/rate-cut-december") footer_cta.

(** The state after [Sample.ev_market] is announced from the default
    state in the iteration [Sample.cycle_ending Sent]. *)
Definition state_after : state :=
  {| tweeted_event_ids := [lit "t"]; total_tweets_sent := 1;
     last_poll_time := Some (isoformat (Sample.now + 2 * us_per_second)) |}.

(** An iteration whose request fails. *)
Definition cycle_offline : cycle :=
  {| fetch_time := Sample.now;
     fetch_response := NetworkError;
     filter_clock := Sample.clock;
     poll_time := Sample.now + 2 * us_per_second;
     api := Sample.api_ending Sent;
     v2_client := true;
     v1_api := true |}.

(** A process without credentials, and one with the four of them. *)
Definition setup_bare : client_setup :=
  {| TWEEPY_AVAILABLE := true; environ := ∅; clients_build := true |}.

Definition setup_live : client_setup :=
  {| TWEEPY_AVAILABLE := true;
     environ := <[lit "X_API_KEY" := lit "k"]>
                (<[lit "X_API_SECRET" := lit "s"]>
                 (<[lit "X_ACCESS_TOKEN" := lit "t"]>
                  (<[lit "X_ACCESS_SECRET" := lit "a"]> ∅)));
     clients_build := true |}.

(** Two lines that [.env] may start with. *)
Definition env_head : list pystr :=
  [lit "# Twitter credentials" ++ nl; nl].

(** An event with three image fields, of which only [icon] is usable. *)
Definition ev_icon : event :=
  [(lit "id", PStr (lit "w")); (lit "image", PStr (lit "ftp://host/a.png"));
   (lit "coverImage", PInt 3); (lit "icon", PStr (lit "https://host/i.png"))].

End Fixture.
(* ===================================================================== *)
(** * Facts about the order of floats and the stable sort *)
(* ===================================================================== *)

Lemma float_ltb_asym (a b : float) :
  float_ltb a b = true -> float_ltb b a = false.
Proof.
  unfold float_ltb, SFltb, SFcompare.
  destruct a as [[]|[]| |[] ma ea], b as [[]|[]| |[] mb eb];
    simpl; try discriminate; try reflexivity;
    change (Pos.compare_cont Eq mb ma) with (Pos.compare mb ma);
    change (Pos.compare_cont Eq ma mb) with (Pos.compare ma mb);
    rewrite (Z.compare_antisym ea eb), (Pos.compare_antisym ma mb);
    destruct (ea ?= eb); simpl; try discriminate; try reflexivity;
    destruct (ma ?= mb)%positive; simpl; try discriminate; reflexivity.
Qed.

Lemma float_ltb_irrefl (a : float) : float_ltb a a = false.
Proof.
  destruct (float_ltb a a) eqn:E; [|reflexivity].
  pose proof (float_ltb_asym _ _ E). congruence.
Qed.

(** On numbers, "not below" is transitive. *)
Lemma float_ltb_negtrans (a b c : float) :
  is_nan b = false ->
  float_ltb a b = false -> float_ltb b c = false -> float_ltb a c = false.
Proof.
  unfold float_ltb, SFltb, SFcompare.
  destruct a as [[]|[]| |[] ma ea], b as [[]|[]| |[] mb eb],
           c as [[]|[]| |[] mc ec];
    simpl; try discriminate; try reflexivity; intros _;
    repeat match goal with
      | |- context [Pos.compare_cont Eq ?x ?y] =>
          change (Pos.compare_cont Eq x y) with (Pos.compare x y)
      end;
    repeat match goal with
      | |- context [(?x ?= ?y)%Z] => destruct (Z.compare_spec x y)
      | |- context [(?x ?= ?y)%positive] => destruct (Pos.compare_spec x y)
      end;
    simpl; try discriminate; try reflexivity; intros; exfalso; lia.
Qed.

Lemma head_insert_desc {A} (x : float * A) (s : list (float * A)) :
  head (insert_desc x s) =
  match head s with
  | None => Some x
  | Some y => if float_ltb (fst x) (fst y) then Some y else Some x
  end.
Proof.
  destruct s as [|y s]; simpl; [reflexivity|].
  destruct (float_ltb (fst x) (fst y)); reflexivity.
Qed.

Lemma head_sort_desc {A} (l : list (float * A)) :
  head (sort_desc l) = first_max l.
Proof.
  induction l as [|x l IH]; [reflexivity|].
  change (sort_desc (x :: l)) with (insert_desc x (sort_desc l)).
  rewrite head_insert_desc, IH. reflexivity.
Qed.

(** [first_max] picks a position: nothing in the list is above the item
    there, and everything before it is strictly below. *)
Lemma first_max_spec {A} (l : list (float * A)) :
  Forall (fun x => is_nan (fst x) = false) l ->
  match first_max l with
  | None => l = []
  | Some x =>
      exists i, l !! i = Some x /\
        (forall j y, l !! j = Some y -> float_ltb (fst x) (fst y) = false) /\
        (forall j y, (j < i)%nat -> l !! j = Some y ->
                     float_ltb (fst y) (fst x) = true)
  end.
Proof.
  induction 1 as [|x l Hx Hl IH]; simpl; [reflexivity|].
  destruct (first_max l) as [y|].
  - destruct IH as (i & Hi & Hmax & Hbefore).
    destruct (float_ltb (fst x) (fst y)) eqn:Hxy.
    + exists (S i). split; [exact Hi|]. split.
      * intros [|j] z Hz; simpl in Hz.
        -- injection Hz as <-. now apply float_ltb_asym.
        -- eauto.
      * intros [|j] z Hj Hz; simpl in Hz.
        -- injection Hz as <-. exact Hxy.
        -- apply (Hbefore j); [lia|exact Hz].
    + exists 0%nat. split; [reflexivity|]. split.
      * intros [|j] z Hz; simpl in Hz.
        -- injection Hz as <-. apply float_ltb_irrefl.
        -- apply float_ltb_negtrans with (b := fst y); eauto.
           apply list_elem_of_lookup_2 in Hi.
           rewrite Forall_forall in Hl. now apply Hl.
      * intros j z Hj. lia.
  - subst l. exists 0%nat. split; [reflexivity|]. split.
    + intros [|j] z Hz; simpl in Hz; [|discriminate].
      injection Hz as <-. apply float_ltb_irrefl.
    + intros j z Hj. lia.
Qed.

Lemma map_result_length {A C} (f : A -> result C) (l : list A) (r : list C) :
  map_result f l = Ok r -> length r = length l.
Proof.
  revert r. induction l as [|a l IH]; simpl; intros r H.
  - injection H as <-. reflexivity.
  - destruct (f a); simpl in H; [|discriminate].
    destruct (map_result f l); simpl in H; [|discriminate].
    injection H as <-. simpl. f_equal. now apply IH.
Qed.

Lemma map_result_lookup {A C} (f : A -> result C) (l : list A) (r : list C) i a :
  map_result f l = Ok r -> l !! i = Some a ->
  exists c, r !! i = Some c /\ f a = Ok c.
Proof.
  revert r i. induction l as [|a' l IH]; simpl; intros r i H Hi; [discriminate|].
  destruct (f a') eqn:Hf; simpl in H; [|discriminate].
  destruct (map_result f l) as [r'|]; simpl in H; [|discriminate].
  injection H as <-. destruct i as [|i]; simpl in *.
  - injection Hi as <-. eauto.
  - eapply IH; eauto.
Qed.

(* ===================================================================== *)
(** * Selection *)
(* ===================================================================== *)

Section Selection.
Context {B : Builtins}.

Lemma head_map_snd {A C} (l : list (A * C)) :
  head (map snd l) = snd <$> head l.
Proof. destruct l; reflexivity. Qed.

(** A missing or falsy [volume] counts as 0. *)
Lemma volume_key_falsy (ev : event) :
  truthy (dict_get ev (lit "volume") (PInt 0)) = false ->
  volume_key ev = Ok (S754_zero false).
Proof.
  unfold volume_key, number_field, py_or. intros ->. reflexivity.
Qed.

(** A volume that [float] rejects makes [find_best_event] raise. *)
Lemma find_best_event_raises (events : list event) (e : exn) :
  events <> [] ->
  map_result volume_key events = Raise e ->
  find_best_event events = Raise e.
Proof.
  intros Hne Hkeys. unfold find_best_event.
  destruct events; [congruence|]. rewrite Hkeys. reflexivity.
Qed.

(** C1, as the code has it: when every volume converts and none is NaN,
    [find_best_event] returns the first event of maximal volume, where a
    missing or falsy volume counts as 0; on the empty list it returns
    none. *)
Theorem find_best_event_first_max (events : list event) (keys : list float) :
  map_result volume_key events = Ok keys ->
  Forall (fun k => is_nan k = false) keys ->
  (forall ev,
     truthy (dict_get ev (lit "volume") (PInt 0)) = false ->
     volume_key ev = Ok (S754_zero false)) /\
  match events with
  | [] => find_best_event events = Ok None
  | _ :: _ =>
      exists i ev k,
        events !! i = Some ev /\ keys !! i = Some k /\
        find_best_event events = Ok (Some ev) /\
        (forall j kj, keys !! j = Some kj -> float_ltb k kj = false) /\
        (forall j kj, (j < i)%nat -> keys !! j = Some kj ->
                      float_ltb kj k = true)
  end.
Proof.
  intros Hkeys Hnan. split; [intros ev; apply volume_key_falsy|].
  destruct events as [|e0 es]; [reflexivity|].
  set (events := e0 :: es) in *.
  assert (Hlen : length keys = length events) by (eapply map_result_length; eauto).
  assert (Hfind : find_best_event events
                  = Ok (snd <$> first_max (zip keys events))).
  { unfold find_best_event, events. fold events. rewrite Hkeys. simpl.
    rewrite head_map_snd, head_sort_desc. reflexivity. }
  assert (Hz : Forall (fun x : float * event => is_nan (fst x) = false)
                 (zip keys events)).
  { apply Forall_lookup. intros j [k e] Hj.
    apply lookup_zip_with_Some in Hj as (k' & e' & Heq & Hk & _).
    injection Heq as -> ->. simpl.
    rewrite Forall_lookup in Hnan. eauto. }
  pose proof (first_max_spec _ Hz) as Hspec.
  destruct (first_max (zip keys events)) as [[k ev]|] eqn:Hfm.
  - destruct Hspec as (i & Hi & Hmax & Hbefore).
    apply lookup_zip_with_Some in Hi as (k' & e' & Heq & Hk & He).
    injection Heq as -> ->.
    exists i, e', k'. repeat split; try assumption.
    + intros j kj Hj.
      destruct (lookup_lt_is_Some_2 events j) as [ej Hej].
      { rewrite <- Hlen. eapply lookup_lt_Some; eauto. }
      apply (Hmax j (kj, ej)). apply lookup_zip_with_Some. eauto.
    + intros j kj Hlt Hj.
      destruct (lookup_lt_is_Some_2 events j) as [ej Hej].
      { rewrite <- Hlen. eapply lookup_lt_Some; eauto. }
      apply (Hbefore j (kj, ej)); [exact Hlt|].
      apply lookup_zip_with_Some. eauto.
  - exfalso. destruct keys; [discriminate Hlen|discriminate Hspec].
Qed.

End Selection.


(* ===================================================================== *)
(** * Filtering *)
(* ===================================================================== *)

Section Filtering.
Context {B : Builtins}.

Ltac skip_case :=
  match goal with
  | |- context [title_slice ?n ?ev] =>
      destruct (title_slice n ev); cbn [bind]; [intros; left; assumption|discriminate]
  end.

(** One turn of the loop: the event is left out, or it passes the five
    checks and heads the result. *)
Lemma filter_loop_cons m ids clock i (ev : event) (rest r : list event) :
  filter_loop m ids clock i (ev :: rest) = Ok r ->
  filter_loop m ids clock (S i) rest = Ok r \/
  exists r', filter_loop m ids clock (S i) rest = Ok r' /\ r = ev :: r' /\
             passes m ids (clock i) ev.
Proof.
  cbn [filter_loop].
  destruct (bool_decide_reflect (event_id ev ∈ ids)) as [|Hid];
    [intros; left; assumption|].
  destruct (is_sports_event ev) as [[]|] eqn:Hs; cbn [bind];
    [skip_case| |discriminate].
  destruct (is_crypto_spam ev) as [[]|] eqn:Hc; cbn [bind];
    [skip_case| |discriminate].
  destruct (is_expired (clock i) ev) eqn:He; [skip_case|].
  destruct (number_field ev "volume") as [v|] eqn:Hv; cbn [bind];
    [|discriminate].
  destruct (float_lt_Z v m) eqn:Hlt; [skip_case|].
  destruct (filter_loop m ids clock (S i) rest) as [r'|]; cbn [bind];
    [|discriminate].
  intros [= <-]. right. exists r'. unfold passes, volume_key. eauto 10.
Qed.

(** An event that passes the five checks is kept when the rest of the
    loop returns. *)
Lemma filter_loop_cons_passes m ids clock i (ev : event) (rest : list event) :
  passes m ids (clock i) ev ->
  filter_loop m ids clock i (ev :: rest)
  = (let* filtered := filter_loop m ids clock (S i) rest in Ok (ev :: filtered)).
Proof.
  intros (Hid & Hs & Hc & He & v & Hv & Hlt). unfold volume_key in Hv.
  cbn [filter_loop].
  rewrite bool_decide_eq_false_2, Hs by exact Hid. cbn [bind].
  rewrite Hc. cbn [bind]. rewrite He, Hv. cbn [bind]. rewrite Hlt.
  reflexivity.
Qed.

(** Every event in the result passed all five checks. *)
Lemma filter_loop_sound m ids clock (events : list event) :
  forall i r, filter_loop m ids clock i events = Ok r ->
  forall ev, ev ∈ r ->
  exists j, events !! j = Some ev /\ passes m ids (clock (i + j)%nat) ev.
Proof.
  induction events as [|e events IH]; intros i r H ev Hin.
  - injection H as <-. inversion Hin.
  - assert (Hrest : forall r', filter_loop m ids clock (S i) events = Ok r' ->
                     ev ∈ r' ->
                     exists j, (e :: events) !! j = Some ev /\
                               passes m ids (clock (i + j)%nat) ev).
    { intros r' Hr' Hin'. destruct (IH _ _ Hr' _ Hin') as (j & Hj & Hp).
      exists (S j). split; [exact Hj|].
      replace (i + S j)%nat with (S i + j)%nat by lia. exact Hp. }
    apply filter_loop_cons in H as [H|(r' & Hr' & -> & Hp)]; [eauto|].
    apply elem_of_cons in Hin as [->|Hin]; [|eauto].
    exists 0%nat. split; [reflexivity|].
    replace (i + 0)%nat with i by lia. exact Hp.
Qed.

(** Every event that passes the five checks is in the result. *)
Lemma filter_loop_complete m ids clock (events : list event) :
  forall i r, filter_loop m ids clock i events = Ok r ->
  forall j ev, events !! j = Some ev ->
  passes m ids (clock (i + j)%nat) ev -> ev ∈ r.
Proof.
  induction events as [|e events IH]; intros i r H j ev Hj Hp;
    [discriminate|].
  destruct j as [|j]; cbn [lookup list_lookup] in Hj.
  - injection Hj as ->. replace (i + 0)%nat with i in Hp by lia.
    rewrite (filter_loop_cons_passes _ _ _ _ _ _ Hp) in H.
    destruct (filter_loop m ids clock (S i) events); cbn [bind] in H;
      [|discriminate].
    injection H as <-. apply elem_of_cons. now left.
  - replace (i + S j)%nat with (S i + j)%nat in Hp by lia.
    apply filter_loop_cons in H as [H|(r' & Hr' & -> & _)].
    + eapply IH; eauto.
    + apply elem_of_cons. right. eapply IH; eauto.
Qed.

(** C2: an event whose id is in the announced ids of the state is not in
    the result of [filter_events], whatever its other fields are. *)
Theorem filter_events_excludes_tweeted clock (events : list event) (st : state)
    (r : list event) (ev : event) :
  filter_events clock events st = Ok r ->
  event_id ev ∈ tweeted_event_ids st ->
  ev ∉ r.
Proof.
  intros H Hid Hin.
  destruct (filter_loop_sound _ _ _ _ _ _ H _ Hin) as (j & _ & Hnot & _).
  apply Hnot, elem_of_list_to_set, Hid.
Qed.

(** C6: an event whose volume is below the minimum is not in the
    result; with the minimum at 0 the volume check excludes no event of
    the volumes the specification has, the numbers that are not
    negative: such an event is in the result as soon as it passes the
    other checks. *)
Theorem filter_events_volume_threshold clock (events : list event) (st : state) :
  (forall m r ev v,
     filter_events_min m clock events st = Ok r ->
     volume_key ev = Ok v -> float_lt_Z v m = true -> ev ∉ r) /\
  (forall r i ev v,
     filter_events_min 0 clock events st = Ok r ->
     events !! i = Some ev ->
     event_id ev ∉ tweeted_event_ids st ->
     is_sports_event ev = Ok false ->
     is_crypto_spam ev = Ok false ->
     is_expired (clock i) ev = false ->
     volume_key ev = Ok v -> float_lt_Z v 0 = false ->
     ev ∈ r).
Proof.
  split.
  - intros m r ev v H Hv Hlt Hin.
    destruct (filter_loop_sound _ _ _ _ _ _ H _ Hin)
      as (j & _ & _ & _ & _ & _ & v' & Hv' & Hlt').
    congruence.
  - intros r i ev v H Hi Hid Hs Hc He Hv Hlt.
    eapply filter_loop_complete; [exact H|exact Hi|].
    simpl. unfold passes. rewrite elem_of_list_to_set. eauto 10.
Qed.

End Filtering.

(* ===================================================================== *)
(** * Formatting *)
(* ===================================================================== *)

Section Formatting.
Context {B : Builtins}.

Lemma length_render (title vol_str liq_str url footer : pystr) :
  length (render title vol_str liq_str url footer) =
  (length title + length vol_str + length liq_str + length url
   + length footer + 63)%nat.
Proof. unfold render, nl. rewrite !length_app. simpl. lia. Qed.

Lemma length_footers : length footer_cta = 47%nat /\ length footer_short = 47%nat.
Proof. split; reflexivity. Qed.

Lemma length_take_280 (s : pystr) : (length (take 280 s) <= 280)%nat.
Proof. rewrite length_take. lia. Qed.

Lemma Ok_take_280 (s tweet : pystr) :
  Ok (take 280 s) = Ok tweet -> (length tweet <= 280)%nat.
Proof. intros [= <-]. apply length_take_280. Qed.

(** C3: whatever the event, a string [format_tweet] returns has at most
    280 characters; and it does return one when the two amounts convert
    and the title is text. *)
Theorem format_tweet_length (ev : event) :
  (forall tweet, format_tweet ev = Ok tweet -> (length tweet <= 280)%nat) /\
  (forall title v l,
     py_or (dict_get ev (lit "title") PNone) (PStr (lit "New Event")) = PStr title ->
     number_field ev "volume" = Ok v ->
     number_field ev "liquidity" = Ok l ->
     exists tweet, format_tweet ev = Ok tweet /\ (length tweet <= 280)%nat).
Proof.
  assert (Hle : forall tweet, format_tweet ev = Ok tweet ->
                  (length tweet <= 280)%nat).
  { intros tweet. unfold format_tweet.
    destruct (number_field ev "volume"); cbn [bind]; [|discriminate].
    destruct (number_field ev "liquidity"); cbn [bind]; [|discriminate].
    repeat match goal with
      | |- context [bind ?r _] => destruct r; cbn [bind]; [|discriminate]
      | |- context [if ?b then _ else _] => destruct b
      end;
      apply Ok_take_280. }
  split; [exact Hle|].
  intros title v l Ht Hv Hl.
  assert (exists tweet, format_tweet ev = Ok tweet) as [tweet Htweet].
  { unfold format_tweet. rewrite Hv, Hl, Ht. cbn [bind py_str py_len truncate_title].
    repeat match goal with
      | |- context [if ?b then _ else _] => destruct b
      end; eauto. }
  eauto.
Qed.

(** C4, as the code has it: for an event whose title is text, or is
    missing or falsy so that ["New Event"] stands for it, when the full
    rendering exceeds 280 characters, the allowed title length is the
    title length minus the overflow minus 3; above 20 the result is the
    rendering with the title cut to that length, three dots appended and
    the alternate footer (exactly 280 characters, so nothing else is
    cut); otherwise it is the first 280 characters of the full
    rendering. *)
Theorem format_tweet_truncation (ev : event) (title url tweet : pystr)
    (v l : float) (allowed : Z) :
  py_or (dict_get ev (lit "title") PNone) (PStr (lit "New Event")) = PStr title ->
  number_field ev "volume" = Ok v ->
  number_field ev "liquidity" = Ok l ->
  url = lit "https://polymarket.com/event/" ++
        py_str (py_or (dict_get ev (lit "slug") PNone) (dict_get ev (lit "id") PNone)) ->
  tweet = render title (format_number v) (format_number l) url footer_cta ->
  (280 < length tweet)%nat ->
  allowed = Z.of_nat (length title) - (Z.of_nat (length tweet) - 280) - 3 ->
  (20 < allowed ->
     format_tweet ev =
       Ok (render (take (Z.to_nat allowed) title ++ lit "...")
             (format_number v) (format_number l) url footer_short) /\
     length (render (take (Z.to_nat allowed) title ++ lit "...")
               (format_number v) (format_number l) url footer_short) = 280%nat) /\
  (allowed <= 20 -> format_tweet ev = Ok (take 280 tweet)).
Proof.
  intros Ht Hv Hl Hurl Htweet Hlong Hallowed.
  assert (Hfmt : format_tweet ev =
            if 20 <? allowed then
              Ok (take 280 (render (take (Z.to_nat allowed) title ++ lit "...")
                              (format_number v) (format_number l) url footer_short))
            else Ok (take 280 tweet)).
  { unfold format_tweet. rewrite Hv, Hl, Ht. cbn [bind py_str py_len truncate_title].
    rewrite <- Hurl, <- Htweet.
    destruct (Nat.ltb_spec 280 (length tweet)) as [_|]; [|lia].
    rewrite <- Hallowed. destruct (20 <? allowed); reflexivity. }
  split; intros Hcmp.
  - assert (Hlen : length (render (take (Z.to_nat allowed) title ++ lit "...")
               (format_number v) (format_number l) url footer_short) = 280%nat).
    { pose proof length_footers as [Hf1 Hf2].
      rewrite Htweet, length_render, Hf1 in Hlong, Hallowed.
      rewrite length_render, Hf2, length_app, length_take. simpl. lia. }
    split; [|exact Hlen].
    rewrite Hfmt. destruct (Z.ltb_spec 20 allowed); [|lia].
    rewrite take_ge by lia. reflexivity.
  - rewrite Hfmt. destruct (Z.ltb_spec 20 allowed); [lia|reflexivity].
Qed.

End Formatting.

(* ===================================================================== *)
(** * Expiry *)
(* ===================================================================== *)

Section Expiry.
Context {B : Builtins}.

Lemma truthy_PStr (s : pystr) : truthy (PStr s) = true <-> s <> [].
Proof.
  simpl. destruct (bool_decide_reflect (s = [])); simpl; split;
    congruence || tauto.
Qed.

(** C8, as the code has it: [is_expired] is a total boolean function;
    it is true exactly when [endDate] is a non-empty string that
    [fromisoformat] reads (a final [Z] standing for [+00:00]) as a
    datetime with a UTC offset and that datetime is strictly before the
    current time; it is false when [endDate] is absent or falsy, and
    when it is not a string that [fromisoformat] reads. *)
Theorem is_expired_iff (now : Z) (ev : event) :
  (is_expired now ev = true <->
   exists s t,
     dict_get ev (lit "endDate") PNone = PStr s /\ s <> [] /\
     fromisoformat (with_utc_offset s) = Some (Aware t) /\ t < now) /\
  (truthy (dict_get ev (lit "endDate") PNone) = false ->
   is_expired now ev = false) /\
  ((forall s, dict_get ev (lit "endDate") PNone = PStr s ->
              fromisoformat (with_utc_offset s) = None) ->
   is_expired now ev = false).
Proof.
  unfold is_expired. set (v := dict_get ev (lit "endDate") PNone).
  repeat split.
  - destruct (truthy v) eqn:Htr; simpl; [|discriminate].
    unfold expired_try.
    destruct v as [| | | |s| |]; try discriminate.
    destruct (fromisoformat (with_utc_offset s)) as [[t|t]|] eqn:Hp;
      simpl; try discriminate.
    intros Hlt. exists s, t. repeat split; try assumption.
    + now apply truthy_PStr.
    + now apply Z.ltb_lt.
  - intros (s & t & Hv & Hs & Hp & Hlt). rewrite Hv.
    apply truthy_PStr in Hs. rewrite Hs. simpl. rewrite Hp. simpl.
    now apply Z.ltb_lt.
  - intros ->. reflexivity.
  - intros Hno. destruct (truthy v); simpl; [|reflexivity].
    unfold expired_try. destruct v as [| | | |s| |]; try reflexivity.
    rewrite (Hno s eq_refl). reflexivity.
Qed.

End Expiry.

(* ===================================================================== *)
(** * Fetching *)
(* ===================================================================== *)

Lemma strftime_Z_nonempty (t : Z) : strftime_Z t <> [].
Proof. unfold strftime_Z. destruct (format_seconds t); discriminate. Qed.

(** The empty string is below every formatted cutoff. *)
Lemma empty_below_cutoff (t : Z) : str_geb [] (strftime_Z t) = false.
Proof.
  pose proof (strftime_Z_nonempty t).
  unfold str_geb. destruct (strftime_Z t); [congruence|reflexivity].
Qed.

(** A cutoff taken from a clock that reads 1970 or later is in range. *)
Lemma cutoff_time_since_epoch (now : Z) :
  0 <= now <= datetime_max ->
  cutoff_time now LOOKBACK_MINUTES
  = Ok (now - LOOKBACK_MINUTES * 60 * us_per_second).
Proof.
  intros Hnow. unfold cutoff_time.
  assert (Hmin : datetime_min = -62135596800000000) by reflexivity.
  assert (Hlook : LOOKBACK_MINUTES * 60 * us_per_second = 600000000)
    by reflexivity.
  rewrite Hlook, Hmin.
  destruct (Z.leb_spec (-62135596800000000) (now - 600000000)); [|lia].
  destruct (Z.leb_spec (now - 600000000) datetime_max); [reflexivity|lia].
Qed.

Lemma scan_recent_string_prefix (cutoff_str : pystr) (events : list event) :
  Forall (fun ev => is_Some (created_at_text ev)) events ->
  scan_recent cutoff_str (map PDict events) = Ok (string_prefix cutoff_str events).
Proof.
  induction 1 as [|ev events [s Hs] _ IH]; [reflexivity|].
  cbn [map scan_recent string_prefix]. unfold created_at_text in *.
  destruct (dict_get ev (lit "createdAt") (PStr [])); try discriminate.
  injection Hs as ->.
  destruct (str_geb s cutoff_str); [|reflexivity].
  rewrite IH. reflexivity.
Qed.

(** The scan walks over a run of recent events and goes on with what
    follows it. *)
Lemma scan_recent_app (cutoff_str : pystr) (kept : list event)
    (rest : list pyval) :
  Forall (lexically_recent cutoff_str) kept ->
  scan_recent cutoff_str (map PDict kept ++ rest) =
  (let* recent := scan_recent cutoff_str rest in Ok (kept ++ recent)).
Proof.
  induction 1 as [|ev kept (s & Hs & Hge) _ IH]; cbn [map app scan_recent].
  - destruct (scan_recent cutoff_str rest); reflexivity.
  - unfold created_at_text in Hs.
    destruct (dict_get ev (lit "createdAt") (PStr [])); try discriminate.
    injection Hs as ->. rewrite Hge, IH.
    destruct (scan_recent cutoff_str rest); reflexivity.
Qed.

(** The scan raises at an item that is not an object, and at an object
    whose [createdAt] is not a string. *)
Lemma scan_recent_raises (cutoff_str : pystr) (bad : pyval)
    (behind : list pyval) :
  malformed_item bad = true ->
  exists e, scan_recent cutoff_str (bad :: behind) = Raise e.
Proof.
  intros Hbad. cbn [scan_recent].
  destruct bad as [| | | | | |ev]; try (eexists; reflexivity).
  simpl in Hbad. unfold created_at_text in Hbad.
  destruct (dict_get ev (lit "createdAt") (PStr []));
    try discriminate; eexists; reflexivity.
Qed.

(** C7, as the code has it: once the cutoff is computed,
    [fetch_recent_events] returns a list and never raises; on a network
    error, an undecodable body, a body that is not a list and a list
    whose scan raises, the list is empty.  On a list, the result is the
    prefix up to, and without, the first event whose raw [createdAt]
    (empty when missing) is below the cutoff formatted to the second, in
    the order of strings: a list of events that are all not below the
    cutoff is returned whole; when such events are followed by an event
    below the cutoff they are returned, whatever stands behind that
    event, read or not; and when they are followed by an item that is
    not an object, or whose [createdAt] is not a string, the scan raises
    and the list is empty. *)
Theorem fetch_recent_events_prefix (now lookback cutoff : Z) :
  cutoff_time now lookback = Ok cutoff ->
  (forall resp, exists recent, fetch_recent_events now resp lookback = Ok recent) /\
  fetch_recent_events now NetworkError lookback = Ok [] /\
  fetch_recent_events now MalformedBody lookback = Ok [] /\
  (forall v, (forall l, v <> PList l) ->
     fetch_recent_events now (Body v) lookback = Ok []) /\
  (forall l e, scan_recent (strftime_Z cutoff) l = Raise e ->
     fetch_recent_events now (Body (PList l)) lookback = Ok []) /\
  (forall events : list event,
     Forall (fun ev => is_Some (created_at_text ev)) events ->
     fetch_recent_events now (Body (PList (map PDict events))) lookback
     = Ok (string_prefix (strftime_Z cutoff) events)) /\
  (forall kept : list event,
     Forall (lexically_recent (strftime_Z cutoff)) kept ->
     fetch_recent_events now (Body (PList (map PDict kept))) lookback
     = Ok kept) /\
  (forall (kept : list event) (old : event) (s : pystr) (behind : list pyval),
     Forall (lexically_recent (strftime_Z cutoff)) kept ->
     created_at_text old = Some s ->
     str_geb s (strftime_Z cutoff) = false ->
     fetch_recent_events now
       (Body (PList (map PDict kept ++ PDict old :: behind))) lookback
     = Ok kept) /\
  (forall (kept : list event) (bad : pyval) (behind : list pyval),
     Forall (lexically_recent (strftime_Z cutoff)) kept ->
     malformed_item bad = true ->
     fetch_recent_events now
       (Body (PList (map PDict kept ++ bad :: behind))) lookback
     = Ok []).
Proof.
  intros Hcut. unfold fetch_recent_events. rewrite Hcut. cbn [bind].
  repeat apply conj; try reflexivity.
  - intros resp. eexists. reflexivity.
  - intros v Hv. destruct v; try reflexivity. now destruct (Hv l).
  - intros l e ->. reflexivity.
  - intros events Hev. rewrite scan_recent_string_prefix by exact Hev.
    reflexivity.
  - intros kept Hkept.
    rewrite <- (app_nil_r (map PDict kept)), (scan_recent_app _ _ _ Hkept).
    cbn [scan_recent bind]. rewrite app_nil_r. reflexivity.
  - intros kept old s behind Hkept Hs Hlt.
    rewrite (scan_recent_app _ _ _ Hkept). cbn [scan_recent].
    unfold created_at_text in Hs.
    destruct (dict_get old (lit "createdAt") (PStr [])); try discriminate.
    injection Hs as ->. rewrite Hlt. cbn [bind]. rewrite app_nil_r.
    reflexivity.
  - intros kept bad behind Hkept Hbad.
    rewrite (scan_recent_app _ _ _ Hkept).
    destruct (scan_recent_raises (strftime_Z cutoff) bad behind Hbad) as [e ->].
    reflexivity.
Qed.

(** C10: the cutoff test compares the raw [createdAt] with the
    formatted cutoff as strings; an event whose [createdAt] is missing
    or empty is below the cutoff, the scan stops at it and every event
    after it is dropped, whatever its [createdAt]. *)
Theorem fetch_recent_events_stops_at_missing_created_at
    (now lookback cutoff : Z) (before : list event) (ev : event)
    (after : list pyval) :
  cutoff_time now lookback = Ok cutoff ->
  Forall (fun e => exists s, created_at_text e = Some s /\
                             str_geb s (strftime_Z cutoff) = true) before ->
  created_at_text ev = Some [] ->
  (forall e s, created_at_text e = Some s ->
     fetch_recent_events now (Body (PList [PDict e])) lookback
     = Ok (if str_geb s (strftime_Z cutoff) then [e] else [])) /\
  fetch_recent_events now (Body (PList (map PDict before ++ PDict ev :: after)))
    lookback = Ok before.
Proof.
  intros Hcut Hbefore Hev. unfold fetch_recent_events. rewrite Hcut.
  cbn [bind]. split.
  - intros e s Hs. cbn [scan_recent]. unfold created_at_text in Hs.
    destruct (dict_get e (lit "createdAt") (PStr [])); try discriminate.
    injection Hs as ->. destruct (str_geb s (strftime_Z cutoff)); reflexivity.
  - assert (Hscan : scan_recent (strftime_Z cutoff)
                      (map PDict before ++ PDict ev :: after) = Ok before).
    { induction Hbefore as [|e before (s & Hs & Hge) _ IH];
        cbn [map app scan_recent].
      - unfold created_at_text in Hev.
        destruct (dict_get ev (lit "createdAt") (PStr [])); try discriminate.
        injection Hev as ->. rewrite empty_below_cutoff. reflexivity.
      - unfold created_at_text in Hs.
        destruct (dict_get e (lit "createdAt") (PStr [])); try discriminate.
        injection Hs as ->. rewrite Hge, IH. reflexivity. }
    rewrite Hscan. reflexivity.
Qed.

(* ===================================================================== *)
(** * The polling iteration *)
(* ===================================================================== *)

Section Iteration.
Context {B : Builtins}.

(** [send_tweet_with_image] returns false exactly when the client is
    configured and the [try] block ends in a rate limit, a server error
    or another exception; only the rate limit sleeps, for 15 minutes. *)
Lemma send_tweet_with_image_false_iff (tw : twitter) (v2 v1 : bool)
    (text : pystr) (image_url : option pystr) :
  fst (send_tweet_with_image tw v2 v1 text image_url) = false <->
  v2 = true /\
  create_tweet tw text (media_ids_for tw v1 image_url) <> Sent.
Proof.
  unfold send_tweet_with_image. destruct v2; simpl.
  - destruct (create_tweet tw text (media_ids_for tw v1 image_url)); simpl;
      split; try discriminate; try (intros [_ H]; congruence);
      intros _; (split; [reflexivity|discriminate]).
  - split; [discriminate|intros [H _]; discriminate].
Qed.

Lemma send_tweet_with_image_cooldown (tw : twitter) (v2 v1 : bool)
    (text : pystr) (image_url : option pystr) :
  snd (send_tweet_with_image tw v2 v1 text image_url) =
  if v2 then
    match create_tweet tw text (media_ids_for tw v1 image_url) with
    | TooManyRequests => 900
    | _ => 0
    end
  else 0.
Proof.
  unfold send_tweet_with_image. destruct v2; simpl; [|reflexivity].
  destruct (create_tweet tw text (media_ids_for tw v1 image_url)); reflexivity.
Qed.

(** C5: when the iteration reaches the publish call and the call
    returns false, [run_once] returns a state with the announced ids and
    the counter of tweets unchanged. *)
Theorem run_once_publish_failure (c : cycle) (st : state) (id text : pystr)
    (image_url : option pystr) :
  plan_cycle c st = Ok (Publish id text image_url) ->
  fst (send_tweet_with_image (api c) (v2_client c) (v1_api c) text image_url)
    = false ->
  exists st',
    run_once c st = Ok st' /\
    tweeted_event_ids st' = tweeted_event_ids st /\
    total_tweets_sent st' = total_tweets_sent st.
Proof.
  intros Hplan Hsend. exists (record_poll c st).
  unfold run_once. rewrite Hplan. cbn [bind]. rewrite Hsend.
  repeat split.
Qed.

Lemma last_n_length {A} (n : nat) (l : list A) : (length (last_n n l) <= n)%nat.
Proof. unfold last_n. rewrite length_drop. lia. Qed.

Lemma last_n_suffix {A} (n : nat) (l : list A) :
  l = take (length l - n) l ++ last_n n l.
Proof. unfold last_n. symmetry. apply take_drop. Qed.

(** C9: when the iteration reaches the publish call and the call
    returns true, [run_once] returns a state whose announced ids are the
    old ids followed by the new one, without the oldest entries beyond
    500: at most 500 entries, nothing dropped when there were fewer; the
    counter is one higher. *)
Theorem run_once_caps_tweeted_ids (c : cycle) (st : state) (id text : pystr)
    (image_url : option pystr) :
  plan_cycle c st = Ok (Publish id text image_url) ->
  fst (send_tweet_with_image (api c) (v2_client c) (v1_api c) text image_url)
    = true ->
  exists st',
    run_once c st = Ok st' /\
    (length (tweeted_event_ids st') <= 500)%nat /\
    length (tweeted_event_ids st')
    = Nat.min 500 (length (tweeted_event_ids st) + 1) /\
    tweeted_event_ids st ++ [id]
    = take (length (tweeted_event_ids st ++ [id]) - 500)
        (tweeted_event_ids st ++ [id]) ++ tweeted_event_ids st' /\
    total_tweets_sent st' = total_tweets_sent st + 1.
Proof.
  intros Hplan Hsend. exists (record_poll c (mark_tweeted st id)).
  unfold run_once. rewrite Hplan. cbn [bind]. rewrite Hsend.
  cbn [record_poll mark_tweeted tweeted_event_ids total_tweets_sent].
  repeat split.
  - apply last_n_length.
  - unfold last_n. rewrite length_drop, length_app. cbn [length]. lia.
  - apply last_n_suffix.
Qed.

End Iteration.

(* ===================================================================== *)
(** * Further properties: fetching *)
(* ===================================================================== *)

Lemma scan_recent_inv (cutoff_str : pystr) (l : list pyval) :
  forall r, scan_recent cutoff_str l = Ok r ->
  map PDict r `prefix_of` l /\ Forall (lexically_recent cutoff_str) r.
Proof.
  induction l as [|v l IH]; cbn [scan_recent]; intros r H.
  - injection H as <-. split; [apply prefix_nil|constructor].
  - destruct v as [| | | | | |ev]; try discriminate.
    destruct (dict_get ev (lit "createdAt") (PStr [])) as [| | | |s| |] eqn:Hc;
      try discriminate.
    destruct (str_geb s cutoff_str) eqn:Hge.
    + destruct (scan_recent cutoff_str l) as [r'|]; cbn [bind] in H;
        [|discriminate].
      injection H as <-. destruct (IH r' eq_refl) as [Hp Hf].
      split; [apply prefix_cons, Hp|].
      constructor; [|exact Hf].
      exists s. unfold created_at_text. rewrite Hc. auto.
    + injection H as <-. split; [apply prefix_nil|constructor].
Qed.

(** An event that is lexically recent against a non-empty cutoff is not
    the empty object. *)
Lemma lexically_recent_nonempty (cutoff : Z) (ev : event) :
  lexically_recent (strftime_Z cutoff) ev -> ev <> [].
Proof.
  intros (s & Hs & Hge) ->. unfold created_at_text in Hs. simpl in Hs.
  injection Hs as <-. rewrite empty_below_cutoff in Hge. discriminate.
Qed.

(** What a returning fetch has established. *)
Lemma fetch_recent_events_inv (now lookback : Z) (resp : response)
    (recent : list event) :
  fetch_recent_events now resp lookback = Ok recent ->
  exists cutoff,
    cutoff_time now lookback = Ok cutoff /\
    Forall (lexically_recent (strftime_Z cutoff)) recent /\
    (recent = [] \/
     exists l, resp = Body (PList l) /\ map PDict recent `prefix_of` l).
Proof.
  unfold fetch_recent_events.
  destruct (cutoff_time now lookback) as [cutoff|]; cbn [bind]; [|discriminate].
  intros [= <-]. exists cutoff. split; [reflexivity|].
  destruct resp as [| |[| | | | |l|]];
    try (split; [constructor|left; reflexivity]).
  destruct (scan_recent (strftime_Z cutoff) l) as [r|] eqn:Hscan;
    [|split; [constructor|left; reflexivity]].
  destruct (scan_recent_inv _ _ _ Hscan) as [Hp Hf].
  split; [exact Hf|]. right. eauto.
Qed.

(** X1: what [fetch_recent_events] returns is a prefix of the items of
    the response list, and each returned event carries a string
    [createdAt] that is not below the formatted cutoff; in particular no
    returned event lacks [createdAt] and none is the empty object. *)
Theorem fetch_recent_events_result (now lookback : Z) (resp : response)
    (recent : list event) :
  fetch_recent_events now resp lookback = Ok recent ->
  exists cutoff,
    cutoff_time now lookback = Ok cutoff /\
    Forall (lexically_recent (strftime_Z cutoff)) recent /\
    Forall (fun ev => ev <> []) recent /\
    (recent = [] \/
     exists l, resp = Body (PList l) /\ map PDict recent `prefix_of` l).
Proof.
  intros H.
  destruct (fetch_recent_events_inv _ _ _ _ H) as (cutoff & Hcut & Hrecent & Hpre).
  exists cutoff. repeat split; try assumption.
  eapply Forall_impl; [exact Hrecent|].
  intros ev. apply lexically_recent_nonempty.
Qed.

Lemma scan_recent_malformed (cutoff_str : pystr) (before : list event)
    (bad : pyval) (after : list pyval) :
  Forall (lexically_recent cutoff_str) before ->
  malformed_item bad = true ->
  exists e, scan_recent cutoff_str (map PDict before ++ bad :: after) = Raise e.
Proof.
  intros Hbefore Hbad.
  induction Hbefore as [|ev before (s & Hs & Hge) _ [e IH]];
    cbn [map app scan_recent].
  - destruct bad as [| | | | | |ev]; try (eexists; reflexivity).
    simpl in Hbad. unfold created_at_text in Hbad.
    destruct (dict_get ev (lit "createdAt") (PStr []));
      try discriminate; eexists; reflexivity.
  - unfold created_at_text in Hs.
    destruct (dict_get ev (lit "createdAt") (PStr [])); try discriminate.
    injection Hs as ->. rewrite Hge, IH. eexists. reflexivity.
Qed.

(** X2: when the scan reaches an item that is not an object, or whose
    [createdAt] is not a string, the handler discards the events
    collected so far: the result is empty, however many recent events
    came before the item. *)
Theorem fetch_recent_events_malformed_item (now lookback cutoff : Z)
    (before : list event) (bad : pyval) (after : list pyval) :
  cutoff_time now lookback = Ok cutoff ->
  Forall (lexically_recent (strftime_Z cutoff)) before ->
  malformed_item bad = true ->
  fetch_recent_events now
    (Body (PList (map PDict before ++ bad :: after))) lookback = Ok [].
Proof.
  intros Hcut Hbefore Hbad. unfold fetch_recent_events.
  rewrite Hcut. cbn [bind].
  destruct (scan_recent_malformed _ _ _ after Hbefore Hbad) as [e ->].
  reflexivity.
Qed.

(* ===================================================================== *)
(** * Further properties: filtering *)
(* ===================================================================== *)

Section MoreFiltering.
Context {B : Builtins}.

(** The loop of [filter_events] is a filter by [verdict] that stops at
    the first exception. *)
Lemma filter_loop_verdict (m : Z) (ids : gset pystr) (clock : nat -> Z) (i : nat)
    (ev : event) (rest : list event) :
  filter_loop m ids clock i (ev :: rest) =
  (let* keep := verdict m ids (clock i) ev in
   let* r := filter_loop m ids clock (S i) rest in
   Ok (if keep then ev :: r else r)).
Proof.
  cbn [filter_loop]. unfold verdict.
  destruct (bool_decide (event_id ev ∈ ids)); cbn [bind].
  { destruct (filter_loop m ids clock (S i) rest); reflexivity. }
  destruct (is_sports_event ev) as [[]|]; cbn [bind]; try reflexivity.
  { destruct (title_slice 40 ev); cbn [bind]; [|reflexivity].
    destruct (filter_loop m ids clock (S i) rest); reflexivity. }
  destruct (is_crypto_spam ev) as [[]|]; cbn [bind]; try reflexivity.
  { destruct (title_slice 40 ev); cbn [bind]; [|reflexivity].
    destruct (filter_loop m ids clock (S i) rest); reflexivity. }
  destruct (is_expired (clock i) ev).
  { destruct (title_slice 40 ev); cbn [bind]; [|reflexivity].
    destruct (filter_loop m ids clock (S i) rest); reflexivity. }
  destruct (number_field ev "volume") as [v|]; cbn [bind]; [|reflexivity].
  destruct (float_lt_Z v m); [|reflexivity].
  destruct (title_slice 40 ev); cbn [bind]; [|reflexivity].
  destruct (filter_loop m ids clock (S i) rest); reflexivity.
Qed.

Lemma verdict_true_passes (m : Z) (ids : gset pystr) (now : Z) (ev : event) :
  verdict m ids now ev = Ok true <-> passes m ids now ev.
Proof.
  unfold verdict, passes, volume_key. split.
  - destruct (bool_decide_reflect (event_id ev ∈ ids)); [discriminate|].
    destruct (is_sports_event ev) as [[]|]; cbn [bind];
      try (destruct (title_slice 40 ev); discriminate); try discriminate.
    destruct (is_crypto_spam ev) as [[]|]; cbn [bind];
      try (destruct (title_slice 40 ev); discriminate); try discriminate.
    destruct (is_expired now ev);
      try (destruct (title_slice 40 ev); discriminate).
    destruct (number_field ev "volume") as [v|]; cbn [bind]; [|discriminate].
    destruct (float_lt_Z v m) eqn:Hlt;
      try (destruct (title_slice 40 ev); discriminate).
    intros _. eauto 10.
  - intros (Hid & -> & -> & -> & v & -> & Hlt).
    rewrite bool_decide_eq_false_2 by exact Hid. cbn [bind]. rewrite Hlt.
    reflexivity.
Qed.

Lemma filter_loop_sublist (m : Z) (ids : gset pystr) (clock : nat -> Z)
    (events : list event) :
  forall i r, filter_loop m ids clock i events = Ok r -> r `sublist_of` events.
Proof.
  induction events as [|ev events IH]; intros i r H.
  - injection H as <-. constructor.
  - rewrite filter_loop_verdict in H.
    destruct (verdict m ids (clock i) ev) as [keep|]; cbn [bind] in H;
      [|discriminate].
    destruct (filter_loop m ids clock (S i) events) as [r'|] eqn:Hr;
      cbn [bind] in H; [|discriminate].
    injection H as <-. specialize (IH _ _ Hr).
    destruct keep; [apply sublist_skip|apply sublist_cons]; exact IH.
Qed.

(** X3: the result of [filter_events] is a subsequence of the input, in
    the input's order, and each event in it was found not announced,
    not sports, not spam, not expired at the time it was examined, and
    of a volume not below the minimum. *)
Theorem filter_events_result (m : Z) (clock : nat -> Z) (events : list event)
    (st : state)
    (r : list event) :
  filter_events_min m clock events st = Ok r ->
  r `sublist_of` events /\
  forall ev, ev ∈ r ->
    exists j, events !! j = Some ev /\
      passes m (list_to_set (tweeted_event_ids st)) (clock j) ev.
Proof.
  intros H. split; [eapply filter_loop_sublist; exact H|].
  intros ev Hin. exact (filter_loop_sound _ _ _ _ _ _ H _ Hin).
Qed.

Lemma filter_loop_all_pass (m : Z) (ids : gset pystr) (now : Z) (r : list event) :
  Forall (passes m ids now) r ->
  forall i, filter_loop m ids (fun _ => now) i r = Ok r.
Proof.
  induction 1 as [|ev r Hp _ IH]; intros i; [reflexivity|].
  rewrite filter_loop_verdict.
  apply verdict_true_passes in Hp. rewrite Hp. cbn [bind].
  rewrite IH. reflexivity.
Qed.

(** X4: while the clock stands, filtering is idempotent: the result of
    [filter_events] passes through [filter_events] unchanged. *)
Theorem filter_events_idempotent (m now : Z) (events : list event) (st : state)
    (r : list event) :
  filter_events_min m (fun _ => now) events st = Ok r ->
  filter_events_min m (fun _ => now) r st = Ok r.
Proof.
  intros H. apply filter_loop_all_pass. apply Forall_forall. intros ev Hin.
  destruct (filter_loop_sound _ _ _ _ _ _ H _ Hin) as (j & _ & Hp).
  exact Hp.
Qed.

Lemma verdict_more_ids (m : Z) (ids1 ids2 : gset pystr) (now : Z) (ev : event)
    (keep : bool) :
  ids1 ⊆ ids2 ->
  verdict m ids1 now ev = Ok keep ->
  verdict m ids2 now ev
  = Ok (keep && negb (bool_decide (event_id ev ∈ ids2))).
Proof.
  intros Hsub. unfold verdict.
  destruct (bool_decide_reflect (event_id ev ∈ ids1)) as [Hin|Hnin].
  - intros [= <-]. rewrite bool_decide_eq_true_2 by (apply Hsub, Hin).
    reflexivity.
  - destruct (bool_decide (event_id ev ∈ ids2)).
    + intros _. rewrite andb_false_r. reflexivity.
    + intros ->. rewrite andb_true_r. reflexivity.
Qed.

(** X5: announcing more ids only removes events from the filter's
    result: over a larger set of announced ids, [filter_events] returns
    the earlier result without the events whose id is now announced,
    and it does not raise where it returned before. *)
Theorem filter_events_more_ids (m : Z) (clock : nat -> Z) (events : list event)
    (st1 st2 : state)
    (r : list event) :
  tweeted_event_ids st1 ⊆ tweeted_event_ids st2 ->
  filter_events_min m clock events st1 = Ok r ->
  filter_events_min m clock events st2
  = Ok (filter (fun ev => event_id ev ∉ tweeted_event_ids st2) r).
Proof.
  intros Hsub. unfold filter_events_min.
  assert (Hids : (list_to_set (tweeted_event_ids st1) : gset pystr)
                 ⊆ list_to_set (tweeted_event_ids st2)).
  { intros x. rewrite !elem_of_list_to_set. apply Hsub. }
  generalize 0%nat. revert r.
  induction events as [|ev events IH]; intros r i H.
  - injection H as <-. reflexivity.
  - rewrite filter_loop_verdict in H. rewrite filter_loop_verdict.
    destruct (verdict m _ (clock i) ev) as [keep|] eqn:Hv; cbn [bind] in H;
      [|discriminate].
    rewrite (verdict_more_ids _ _ _ _ _ _ Hids Hv). cbn [bind].
    destruct (filter_loop m _ clock (S i) events) as [r'|] eqn:Hr;
      cbn [bind] in H; [|discriminate].
    rewrite (IH _ _ Hr). cbn [bind]. injection H as <-.
    destruct keep; cbn [andb]; [|reflexivity].
    destruct (bool_decide_reflect
                (event_id ev ∈ (list_to_set (tweeted_event_ids st2) : gset pystr)))
      as [Hin|Hnin]; cbn [negb].
    + rewrite filter_cons_False; [reflexivity|].
      intros Hn. apply Hn. apply elem_of_list_to_set in Hin. exact Hin.
    + rewrite filter_cons_True; [reflexivity|].
      intros Hin. apply Hnin. apply elem_of_list_to_set. exact Hin.
Qed.

Lemma filter_loop_app (m : Z) (ids : gset pystr) (clock : nat -> Z)
    (l1 l2 : list event) :
  forall i,
  filter_loop m ids clock i (l1 ++ l2) =
  (let* r1 := filter_loop m ids clock i l1 in
   let* r2 := filter_loop m ids clock (i + length l1) l2 in
   Ok (r1 ++ r2)).
Proof.
  induction l1 as [|ev l1 IH]; intros i.
  - cbn [app filter_loop bind length]. replace (i + 0)%nat with i by lia.
    destruct (filter_loop m ids clock i l2); reflexivity.
  - cbn [app]. rewrite !filter_loop_verdict, IH.
    destruct (verdict m ids (clock i) ev) as [keep|]; cbn [bind]; [|reflexivity].
    destruct (filter_loop m ids clock (S i) l1) as [r1|]; cbn [bind];
      [|reflexivity].
    cbn [length]. replace (i + S (length l1))%nat with (S i + length l1)%nat by lia.
    destruct (filter_loop m ids clock (S i + length l1) l2); cbn [bind];
      [|reflexivity].
    destruct keep; reflexivity.
Qed.

(** X6: one event whose [series] is [null] aborts the whole filter with
    [TypeError] when the loop reaches it, unless its id is already
    announced, in which case it is skipped before [series] is read. *)
Theorem filter_events_null_series (m : Z) (clock : nat -> Z)
    (before after : list event)
    (ev : event) (st : state) (r0 : list event) :
  filter_events_min m clock before st = Ok r0 ->
  dict_get ev (lit "series") (PList []) = PNone ->
  filter_events_min m clock (before ++ ev :: after) st =
  if bool_decide (event_id ev ∈ tweeted_event_ids st) then
    (let* r2 := filter_loop m (list_to_set (tweeted_event_ids st)) clock
                  (S (length before)) after in
     Ok (r0 ++ r2))
  else Raise TypeError.
Proof.
  unfold filter_events_min. intros H0 Hseries.
  rewrite filter_loop_app, H0. cbn [bind]. rewrite filter_loop_verdict.
  unfold verdict, is_sports_event. rewrite Hseries.
  cbn [Nat.add].
  destruct (bool_decide_reflect (event_id ev ∈ tweeted_event_ids st)) as [Hin|Hnin].
  - rewrite bool_decide_eq_true_2 by (apply elem_of_list_to_set, Hin).
    cbn [bind].
    destruct (filter_loop m _ clock (S (length before)) after); reflexivity.
  - rewrite bool_decide_eq_false_2
      by (intros Hin; apply Hnin; apply elem_of_list_to_set in Hin; exact Hin).
    reflexivity.
Qed.

End MoreFiltering.

(* ===================================================================== *)
(** * Further properties: selection and the iteration *)
(* ===================================================================== *)

Section MoreIteration.
Context {B : Builtins}.

Lemma first_max_elem_of {A} (l : list (float * A)) (x : float * A) :
  first_max l = Some x -> x ∈ l.
Proof.
  revert x. induction l as [|y l IH]; intros x; cbn [first_max]; [discriminate|].
  destruct (first_max l) as [z|].
  - destruct (float_ltb (fst y) (fst z)); intros [= <-].
    + apply elem_of_cons. right. now apply IH.
    + apply elem_of_cons. now left.
  - intros [= <-]. apply elem_of_cons. now left.
Qed.

Lemma first_max_None {A} (l : list (float * A)) : first_max l = None -> l = [].
Proof.
  destruct l as [|y l]; cbn [first_max]; [reflexivity|].
  destruct (first_max l) as [z|]; [|discriminate].
  destruct (float_ltb (fst y) (fst z)); discriminate.
Qed.

(** What [find_best_event] returns heads the sorted list, so it is the
    first maximum of the keyed events. *)
Lemma find_best_event_first_max_of (events : list event) (best : option event) :
  find_best_event events = Ok best ->
  events = [] /\ best = None \/
  exists keys,
    map_result volume_key events = Ok keys /\
    best = snd <$> first_max (zip keys events).
Proof.
  unfold find_best_event. destruct events as [|e0 es].
  { intros [= <-]. left. auto. }
  set (events := e0 :: es).
  destruct (map_result volume_key events) as [keys|] eqn:Hkeys; cbn [bind];
    [|discriminate].
  rewrite head_map_snd, head_sort_desc. intros [= <-]. right. eauto.
Qed.

Lemma find_best_event_elem_of (events : list event) (ev : event) :
  find_best_event events = Ok (Some ev) -> ev ∈ events.
Proof.
  intros H.
  destruct (find_best_event_first_max_of _ _ H) as [[_ [=]]|(keys & _ & Hbest)].
  destruct (first_max (zip keys events)) as [[k e]|] eqn:Hfm; [|discriminate].
  injection Hbest as ->.
  apply first_max_elem_of in Hfm.
  apply list_elem_of_lookup in Hfm as [i Hi].
  apply lookup_zip_with_Some in Hi as (k' & e' & Heq & _ & He).
  injection Heq as -> ->. apply list_elem_of_lookup. eauto.
Qed.

Lemma find_best_event_None (events : list event) :
  find_best_event events = Ok None -> events = [].
Proof.
  intros H.
  destruct (find_best_event_first_max_of _ _ H) as [[-> _]|(keys & Hkeys & Hbest)];
    [reflexivity|].
  destruct (first_max (zip keys events)) as [x|] eqn:Hfm; [discriminate|].
  apply first_max_None in Hfm. apply map_result_length in Hkeys.
  destruct events; [reflexivity|].
  destruct keys; [discriminate Hkeys|discriminate Hfm].
Qed.

(** X7: [find_best_event] never makes up an event: what it returns is
    one of the events it was given, and on a non-empty list it returns
    an event whenever it returns (NaN volumes included). *)
Theorem find_best_event_member (events : list event) (best : option event) :
  find_best_event events = Ok best ->
  match best with
  | Some ev => ev ∈ events
  | None => events = []
  end.
Proof.
  destruct best as [ev|]; intros H.
  - now apply find_best_event_elem_of.
  - now apply find_best_event_None.
Qed.

(** What [run_once] has established when it arrives at the publish
    call. *)
Lemma plan_cycle_publish_inv (c : cycle) (st : state) (id text : pystr)
    (image_url : option pystr) :
  plan_cycle c st = Ok (Publish id text image_url) ->
  exists events quality best,
    fetch_recent_events (fetch_time c) (fetch_response c) LOOKBACK_MINUTES
      = Ok events /\
    filter_events (filter_clock c) events st = Ok quality /\
    find_best_event quality = Ok (Some best) /\
    id = event_id best /\
    format_tweet best = Ok text /\
    image_url = get_event_image_url best.
Proof.
  unfold plan_cycle.
  destruct (fetch_recent_events _ _ _) as [events|] eqn:Hfetch; cbn [bind];
    [|discriminate].
  destruct (bool_decide (events = [])); [discriminate|].
  destruct (filter_events _ events st) as [quality|] eqn:Hfilter; cbn [bind];
    [|discriminate].
  destruct (bool_decide (quality = [])); [discriminate|].
  destruct (find_best_event quality) as [[best|]|] eqn:Hbest; cbn [bind];
    try discriminate.
  destruct (negb (truthy (PDict best))); [discriminate|].
  destruct (title_slice 50 best); cbn [bind]; [|discriminate].
  destruct (number_field best "volume"); cbn [bind]; [|discriminate].
  destruct (format_tweet best) as [t|] eqn:Htext; cbn [bind]; [|discriminate].
  intros [= <- <- <-]. exists events, quality, best. auto 10.
Qed.

Lemma format_tweet_le_280 (ev : event) (tweet : pystr) :
  format_tweet ev = Ok tweet -> (length tweet <= 280)%nat.
Proof.
  unfold format_tweet.
  destruct (number_field ev "volume"); cbn [bind]; [|discriminate].
  destruct (number_field ev "liquidity"); cbn [bind]; [|discriminate].
  repeat match goal with
    | |- context [bind ?r _] => destruct r; cbn [bind]; [|discriminate]
    | |- context [if ?b then _ else _] => destruct b
    end;
    apply Ok_take_280.
Qed.

(** The id that reaches the publish call is not an announced one. *)
Lemma plan_cycle_publish_fresh (c : cycle) (st : state) (id text : pystr)
    (image_url : option pystr) :
  plan_cycle c st = Ok (Publish id text image_url) ->
  id ∉ tweeted_event_ids st.
Proof.
  intros H.
  destruct (plan_cycle_publish_inv _ _ _ _ _ H)
    as (events & quality & best & _ & Hfilter & Hbest & -> & _).
  apply find_best_event_elem_of in Hbest.
  destruct (filter_loop_sound _ _ _ _ _ _ Hfilter _ Hbest) as (j & _ & Hid & _).
  intros Hin. apply Hid. apply elem_of_list_to_set. exact Hin.
Qed.

(** X8: [run_once] never publishes an event that is already announced:
    the event it arrives at the publish call with came out of the
    response, passed every check of the filter, its id is not among
    the announced ids of the state, and its text has at most 280
    characters. *)
Theorem plan_cycle_publishes_new_event (c : cycle) (st : state)
    (id text : pystr) (image_url : option pystr) :
  plan_cycle c st = Ok (Publish id text image_url) ->
  (id ∉ tweeted_event_ids st) /\
  (length text <= 280)%nat /\
  exists events best j,
    fetch_recent_events (fetch_time c) (fetch_response c) LOOKBACK_MINUTES
      = Ok events /\
    events !! j = Some best /\
    id = event_id best /\
    passes MIN_VOLUME (list_to_set (tweeted_event_ids st))
      (filter_clock c j) best.
Proof.
  intros H. split; [exact (plan_cycle_publish_fresh _ _ _ _ _ H)|].
  destruct (plan_cycle_publish_inv _ _ _ _ _ H)
    as (events & quality & best & Hfetch & Hfilter & Hbest & -> & Htext & _).
  split; [exact (format_tweet_le_280 _ _ Htext)|].
  apply find_best_event_elem_of in Hbest.
  destruct (filter_loop_sound _ _ _ _ _ _ Hfilter _ Hbest) as (j & Hj & Hp).
  exists events, best, j. auto.
Qed.

(** The early return of [run_once] under [if not best_event] is never
    taken: an event that comes out of the fetch has a [createdAt], so it
    is not the empty object. *)
Lemma plan_cycle_selects (c : cycle) (st : state) :
  plan_cycle c st <> Ok NoEventSelected.
Proof.
  unfold plan_cycle.
  destruct (fetch_recent_events _ _ _) as [events|] eqn:Hfetch; cbn [bind];
    [|discriminate].
  destruct (bool_decide (events = [])); [discriminate|].
  destruct (filter_events _ events st) as [quality|] eqn:Hfilter; cbn [bind];
    [|discriminate].
  destruct (bool_decide_reflect (quality = [])) as [|Hne]; [discriminate|].
  destruct (find_best_event quality) as [[best|]|] eqn:Hbest; cbn [bind];
    try discriminate.
  - apply find_best_event_elem_of in Hbest.
    destruct (filter_loop_sound _ _ _ _ _ _ Hfilter _ Hbest) as (j & Hj & _).
    destruct (fetch_recent_events_inv _ _ _ _ Hfetch)
      as (cutoff & _ & Hrecent & _).
    rewrite Forall_lookup in Hrecent. specialize (Hrecent _ _ Hj).
    apply lexically_recent_nonempty in Hrecent.
    destruct best as [|kv best]; [congruence|]. cbn.
    destruct (title_slice 50 (kv :: best)); cbn [bind]; [|discriminate].
    destruct (number_field (kv :: best) "volume"); cbn [bind]; [|discriminate].
    destruct (format_tweet (kv :: best)); cbn [bind]; discriminate.
  - apply find_best_event_None in Hbest. congruence.
Qed.

(** The two ways [run_once] returns: without a candidate, the poll
    recorded; or behind the publish call, the event marked when the
    call succeeded. *)
Lemma run_once_cases (c : cycle) (st st' : state) :
  run_once c st = Ok st' ->
  st' = record_poll c st \/
  exists id text image_url,
    plan_cycle c st = Ok (Publish id text image_url) /\
    st' = record_poll c
            (if fst (send_tweet_with_image (api c) (v2_client c) (v1_api c)
                       text image_url)
             then mark_tweeted st id else st).
Proof.
  unfold run_once.
  destruct (plan_cycle c st) as [p|] eqn:Hplan; cbn [bind]; [|discriminate].
  destruct p as [| | |id text image_url]; intros [= <-]; eauto 10.
  destruct (plan_cycle_selects _ _ Hplan).
Qed.

(** X9: whenever [run_once] returns, it has written the time of this
    poll to the state: the early return under [if not best_event], the
    one return that skips the write, is never taken, because an event
    that comes out of the fetch is not the empty object. *)
Theorem run_once_records_poll (c : cycle) (st st' : state) :
  run_once c st = Ok st' ->
  last_poll_time st' = Some (isoformat (poll_time c)).
Proof.
  intros H.
  destruct (run_once_cases _ _ _ H) as [->|(id & text & img & _ & ->)];
    reflexivity.
Qed.

(** X10: one iteration changes the announced ids and the counter
    together or not at all: either both are as before, or one id that
    was not announced before is appended (the oldest dropped beyond
    500) and the counter is one higher. *)
Theorem run_once_step (c : cycle) (st st' : state) :
  run_once c st = Ok st' ->
  (tweeted_event_ids st' = tweeted_event_ids st /\
   total_tweets_sent st' = total_tweets_sent st) \/
  exists id,
    (id ∉ tweeted_event_ids st) /\
    tweeted_event_ids st' = last_n 500 (tweeted_event_ids st ++ [id]) /\
    total_tweets_sent st' = total_tweets_sent st + 1.
Proof.
  intros H.
  destruct (run_once_cases _ _ _ H) as [->|(id & text & img & Hplan & ->)];
    [left; split; reflexivity|].
  destruct (fst (send_tweet_with_image _ _ _ _ _)).
  - right. exists id. split; [|split; reflexivity].
    exact (plan_cycle_publish_fresh _ _ _ _ _ Hplan).
  - left. split; reflexivity.
Qed.

(** X11: a network error or an undecodable body never stops an
    iteration: with a clock that reads 1970 or later, [run_once]
    returns the state with only the poll time written. *)
Theorem run_once_fetch_failure (c : cycle) (st : state) :
  0 <= fetch_time c <= datetime_max ->
  fetch_response c = NetworkError \/ fetch_response c = MalformedBody ->
  run_once c st = Ok (record_poll c st).
Proof.
  intros Hnow Hresp. unfold run_once, plan_cycle, fetch_recent_events.
  rewrite (cutoff_time_since_epoch _ Hnow). cbn [bind].
  destruct Hresp as [-> | ->]; reflexivity.
Qed.

Lemma NoDup_last_n {A} (n : nat) (l : list A) : NoDup l -> NoDup (last_n n l).
Proof. unfold last_n. intros H. eapply sublist_NoDup; [exact H|apply sublist_drop]. Qed.

(** Appending an id that is not in a duplicate-free list, and cutting
    to the last 500, leaves the list duplicate-free. *)
Lemma NoDup_mark (ids : list pystr) (id : pystr) :
  NoDup ids -> id ∉ ids -> NoDup (last_n 500 (ids ++ [id])).
Proof.
  intros Hnd Hnew. apply NoDup_last_n. apply NoDup_app. repeat split.
  - exact Hnd.
  - intros x Hx Hin. apply list_elem_of_singleton in Hin. congruence.
  - apply NoDup_singleton.
Qed.

(** X12: an iteration keeps the announced ids free of duplicates. *)
Theorem run_once_NoDup (c : cycle) (st st' : state) :
  NoDup (tweeted_event_ids st) ->
  run_once c st = Ok st' ->
  NoDup (tweeted_event_ids st').
Proof.
  intros Hnd H.
  destruct (run_once_cases _ _ _ H) as [->|(id & text & img & Hplan & ->)];
    [exact Hnd|].
  destruct (fst (send_tweet_with_image _ _ _ _ _)); [|exact Hnd].
  apply NoDup_mark; [exact Hnd|].
  exact (plan_cycle_publish_fresh _ _ _ _ _ Hplan).
Qed.

End MoreIteration.

(* ===================================================================== *)
(** * Further properties: the loop of [main] and the clients *)
(* ===================================================================== *)

Section MoreLoop.
Context {B : Builtins}.

(** One turn of the loop changes the announced ids and the counter as a
    returning [run_once] does, or not at all. *)
Lemma poll_step (c : cycle) (st : state) :
  (tweeted_event_ids (poll c st) = tweeted_event_ids st /\
   total_tweets_sent (poll c st) = total_tweets_sent st) \/
  exists id,
    (id ∉ tweeted_event_ids st) /\
    tweeted_event_ids (poll c st) = last_n 500 (tweeted_event_ids st ++ [id]) /\
    total_tweets_sent (poll c st) = total_tweets_sent st + 1.
Proof.
  unfold poll. destruct (run_once c st) as [st'|] eqn:H; [|left; auto].
  destruct (run_once_cases _ _ _ H) as [->|(id & text & img & Hplan & ->)];
    [left; split; reflexivity|].
  destruct (fst (send_tweet_with_image _ _ _ _ _)).
  - right. exists id. split; [|split; reflexivity].
    exact (plan_cycle_publish_fresh _ _ _ _ _ Hplan).
  - left. split; reflexivity.
Qed.

(** X13: however many turns the loop of [main] takes, and whatever the
    turns observe, the announced ids stay free of duplicates. *)
Theorem main_NoDup (s : client_setup) (st : state) (cycles : list cycle) :
  NoDup (tweeted_event_ids st) ->
  NoDup (tweeted_event_ids (main s st cycles)).
Proof.
  unfold main. generalize (map (with_clients (get_twitter_clients s)) cycles).
  intros l. revert st. induction l as [|c l IH]; intros st Hnd; [exact Hnd|].
  cbn [poll_loop]. apply IH.
  destruct (poll_step c st) as [[-> _]|(id & Hnew & -> & _)]; [exact Hnd|].
  now apply NoDup_mark.
Qed.

(** X14: over the turns of the loop of [main] the announced ids never
    grow beyond 500 entries (or beyond what the loaded state held), and
    the counter of tweets never decreases and grows by at most one a
    turn. *)
Theorem main_bounds (s : client_setup) (st : state) (cycles : list cycle) :
  (length (tweeted_event_ids (main s st cycles))
   <= Nat.max 500 (length (tweeted_event_ids st)))%nat /\
  total_tweets_sent st <= total_tweets_sent (main s st cycles)
    <= total_tweets_sent st + Z.of_nat (length cycles).
Proof.
  unfold main.
  replace (length cycles)
    with (length (map (with_clients (get_twitter_clients s)) cycles))
    by apply length_map.
  generalize (map (with_clients (get_twitter_clients s)) cycles).
  intros l. revert st. induction l as [|c l IH]; intros st.
  - cbn [poll_loop length]. lia.
  - cbn [poll_loop length]. specialize (IH (poll c st)).
    destruct (poll_step c st) as [[Hi Ht]|(id & _ & Hi & Ht)];
      rewrite Hi, Ht in IH.
    + lia.
    + pose proof (last_n_length 500 (tweeted_event_ids st ++ [id])). lia.
Qed.

Lemma plan_cycle_with_clients (clients : bool * bool) (c : cycle) (st : state) :
  plan_cycle (with_clients clients c) st = plan_cycle c st.
Proof. reflexivity. Qed.

(** X15: [get_twitter_clients] returns both clients or none, and both
    exactly when [tweepy] is imported, the four credentials are set and
    not empty, and the constructors do not raise. *)
Theorem get_twitter_clients_both_or_none (s : client_setup) :
  fst (get_twitter_clients s) = snd (get_twitter_clients s) /\
  (fst (get_twitter_clients s) = true <->
   TWEEPY_AVAILABLE s = true /\
   (forall name, name ∈ ["X_API_KEY"; "X_API_SECRET"; "X_ACCESS_TOKEN";
                         "X_ACCESS_SECRET"]%string ->
      exists v, environ s !! lit name = Some v /\ v <> []) /\
   clients_build s = true).
Proof.
  unfold get_twitter_clients.
  assert (Hcred : forall name, credential_set (environ s) name = true <->
            exists v, environ s !! lit name = Some v /\ v <> []).
  { intros name. unfold credential_set.
    destruct (environ s !! lit name) as [v|].
    - destruct (bool_decide_reflect (v = [])); cbn [negb]; split.
      + discriminate.
      + intros (v' & [= <-] & Hne). congruence.
      + eauto.
      + reflexivity.
    - split; [discriminate|]. intros (v & Hv & _). discriminate. }
  destruct (TWEEPY_AVAILABLE s); cbn [negb];
    [|split; [reflexivity|split; [discriminate|intros [H _]; discriminate]]].
  destruct (credential_set (environ s) "X_API_KEY") eqn:H1;
  destruct (credential_set (environ s) "X_API_SECRET") eqn:H2;
  destruct (credential_set (environ s) "X_ACCESS_TOKEN") eqn:H3;
  destruct (credential_set (environ s) "X_ACCESS_SECRET") eqn:H4;
  cbn [andb negb].
  1: { destruct (clients_build s); cbn [fst snd]; split; try reflexivity.
       - split; [intros _|reflexivity]. repeat split.
         intros name Hname. apply Hcred.
         repeat (apply elem_of_cons in Hname as [->|Hname]; [assumption|]).
         inversion Hname.
       - split; [discriminate|]. intros (_ & _ & [=]). }
  all: split; [reflexivity|]; split; [discriminate|];
    intros (_ & Hall & _); exfalso.
  all: match goal with
       | H : credential_set _ ?n = false |- _ =>
           assert (Hn : credential_set (environ s) n = true)
             by (apply Hcred, Hall; repeat constructor);
           congruence
       end.
Qed.

(** X16: without credentials the bot runs dry, and a dry run records
    what it would have sent: each event the iteration arrives at the
    publish call with is marked announced and counted, though no tweet
    was created. *)
Theorem main_dry_run_records (s : client_setup) (c : cycle) (st : state)
    (id text : pystr) (image_url : option pystr) :
  fst (get_twitter_clients s) = false ->
  plan_cycle c st = Ok (Publish id text image_url) ->
  main s st [c]
  = record_poll c (mark_tweeted st id).
Proof.
  intros Hdry Hplan. unfold main. cbn [map poll_loop]. unfold poll, run_once.
  rewrite plan_cycle_with_clients, Hplan. cbn [bind].
  unfold send_tweet_with_image. cbn [v2_client with_clients].
  rewrite Hdry. reflexivity.
Qed.

End MoreLoop.

(* ===================================================================== *)
(** * Further properties: images, publishing and formatting *)
(* ===================================================================== *)

Section MorePublishing.
Context {B : Builtins}.

(** X17: the image of an event is the first of [image], [coverImage]
    and [icon] that holds a string starting with [http]; when none
    does, there is no image. *)
Theorem get_event_image_url_first (ev : event) :
  match get_event_image_url ev with
  | Some url =>
      image_value (dict_get ev (lit "image") PNone) url \/
      ((forall u, ~ image_value (dict_get ev (lit "image") PNone) u) /\
       image_value (dict_get ev (lit "coverImage") PNone) url) \/
      ((forall u, ~ image_value (dict_get ev (lit "image") PNone) u) /\
       (forall u, ~ image_value (dict_get ev (lit "coverImage") PNone) u) /\
       image_value (dict_get ev (lit "icon") PNone) url)
  | None =>
      forall field u,
        field ∈ ["image"; "coverImage"; "icon"]%string ->
        ~ image_value (dict_get ev (lit field) PNone) u
  end.
Proof.
  assert (Hpick : forall v : pyval,
            match (match v with
                   | PStr url =>
                       if negb (bool_decide (url = [])) && startswith url (lit "http")
                       then Some url else None
                   | _ => None
                   end) with
            | Some url => image_value v url
            | None => forall u, ~ image_value v u
            end).
  { intros v. destruct v as [| | | |s| |];
      try (intros u [Hv _]; discriminate).
    destruct (bool_decide_reflect (s = [])) as [->|Hne]; cbn [negb andb].
    - intros u [[= <-] Hs]. discriminate.
    - destruct (startswith s (lit "http")) eqn:Hs.
      + split; [reflexivity|exact Hs].
      + intros u [[= <-] Hu]. congruence. }
  unfold get_event_image_url.
  pose proof (Hpick (dict_get ev (lit "image") PNone)) as H1.
  pose proof (Hpick (dict_get ev (lit "coverImage") PNone)) as H2.
  pose proof (Hpick (dict_get ev (lit "icon") PNone)) as H3.
  destruct (match dict_get ev (lit "image") PNone with
            | PStr url => _ | _ => None end) as [u1|]; [left; exact H1|].
  destruct (match dict_get ev (lit "coverImage") PNone with
            | PStr url => _ | _ => None end) as [u2|]; [right; left; auto|].
  destruct (match dict_get ev (lit "icon") PNone with
            | PStr url => _ | _ => None end) as [u3|]; [right; right; auto|].
  intros field u Hfield.
  repeat (apply elem_of_cons in Hfield as [->|Hfield]; [auto|]).
  inversion Hfield.
Qed.

(** X18: a dry run (no [v2_client]) reports success whatever the
    Twitter API would answer, without sleeping; with a client the call
    fails exactly when the [try] block ends in one of its three
    handlers, and it sleeps, for 15 minutes, only on a rate limit. *)
Theorem send_tweet_with_image_outcomes (tw : twitter) (v2 v1 : bool)
    (text : pystr) (image_url : option pystr) :
  (v2 = false ->
   send_tweet_with_image tw v2 v1 text image_url = (true, 0)) /\
  (fst (send_tweet_with_image tw v2 v1 text image_url) = false <->
   v2 = true /\
   create_tweet tw text (media_ids_for tw v1 image_url) <> Sent) /\
  (snd (send_tweet_with_image tw v2 v1 text image_url) <> 0 <->
   v2 = true /\
   create_tweet tw text (media_ids_for tw v1 image_url) = TooManyRequests /\
   snd (send_tweet_with_image tw v2 v1 text image_url) = 900).
Proof.
  split; [intros ->; reflexivity|].
  split; [apply send_tweet_with_image_false_iff|].
  rewrite send_tweet_with_image_cooldown.
  destruct v2; [|split; [congruence|intros [[=] _]]].
  destruct (create_tweet tw text (media_ids_for tw v1 image_url));
    split; try congruence; try (intros (_ & [=] & _)).
  intros _. auto.
Qed.

(** X19: a failed download or upload never costs the tweet: when the
    image cannot be fetched or uploaded, the call does what it does for
    an event without image. *)
Theorem send_tweet_with_image_image_failure (tw : twitter) (v2 v1 : bool)
    (text url : pystr) :
  download_image tw url = None \/
  (exists data, download_image tw url = Some data /\
                upload_image tw data = None) ->
  send_tweet_with_image tw v2 v1 text (Some url)
  = send_tweet_with_image tw v2 v1 text None.
Proof.
  intros Hfail. unfold send_tweet_with_image.
  assert (Hmedia : media_ids_for tw v1 (Some url) = media_ids_for tw v1 None).
  { unfold media_ids_for.
    destruct (negb (bool_decide (url = [])) && v1); [|reflexivity].
    destruct Hfail as [-> | (data & -> & Hup)]; [reflexivity|].
    rewrite Hup. destruct (bool_decide (data = [])); reflexivity. }
  rewrite Hmedia. reflexivity.
Qed.

Lemma take_header (s : pystr) : take 25 (take 280 (header ++ s)) = header.
Proof.
  rewrite take_take. change (25 `min` 280)%nat with 25%nat.
  apply take_app_length'. reflexivity.
Qed.

Lemma render_header (title vol_str liq_str url footer : pystr) :
  exists s, render title vol_str liq_str url footer = header ++ s.
Proof.
  unfold render, header. eexists. rewrite <- !app_assoc. reflexivity.
Qed.

Lemma Ok_take_header (s tweet : pystr) :
  (exists r, s = header ++ r) ->
  Ok (take 280 s) = Ok tweet -> take 25 tweet = header.
Proof. intros [r ->] [= <-]. apply take_header. Qed.

(** X20: whatever is cut, the announcement keeps its header: every
    string [format_tweet] returns starts with the line
    [New Polymarket Event!] and the empty line after it. *)
Theorem format_tweet_header (ev : event) (tweet : pystr) :
  format_tweet ev = Ok tweet -> take 25 tweet = header.
Proof.
  unfold format_tweet.
  destruct (number_field ev "volume"); cbn [bind]; [|discriminate].
  destruct (number_field ev "liquidity"); cbn [bind]; [|discriminate].
  repeat match goal with
    | |- context [bind ?r _] => destruct r; cbn [bind]; [|discriminate]
    | |- context [if ?b then _ else _] => destruct b
    end;
    apply Ok_take_header, render_header.
Qed.

(** X21: an announcement that fits is sent whole: when the two amounts
    convert and the full rendering has at most 280 characters,
    [format_tweet] returns the full rendering, for a title of any type,
    with the link built from the slug or, when the slug is missing or
    empty, from the id. *)
Theorem format_tweet_fits (ev : event) (v l : float) (tweet : pystr) :
  number_field ev "volume" = Ok v ->
  number_field ev "liquidity" = Ok l ->
  tweet = render
            (py_str (py_or (dict_get ev (lit "title") PNone)
                       (PStr (lit "New Event"))))
            (format_number v) (format_number l)
            (lit "https://polymarket.com/event/" ++
             py_str (py_or (dict_get ev (lit "slug") PNone)
                       (dict_get ev (lit "id") PNone)))
            footer_cta ->
  (length tweet <= 280)%nat ->
  format_tweet ev = Ok tweet.
Proof.
  intros Hv Hl Htweet Hfits. unfold format_tweet. rewrite Hv, Hl. cbn [bind].
  rewrite <- Htweet.
  destruct (Nat.ltb_spec 280 (length tweet)); [lia|].
  rewrite take_ge by lia. reflexivity.
Qed.

End MorePublishing.

(* ===================================================================== *)
(** * Further properties: the sports check *)
(* ===================================================================== *)

Section MoreSports.
Context {B : Builtins}.



End MoreSports.

(* ===================================================================== *)
(** * Further properties: loading [.env] *)
(* ===================================================================== *)

Section MoreDotEnv.
Variable isspace : N -> bool.

Lemma lstrip_blank_app (ws s : pystr) :
  blank isspace ws -> py_lstrip isspace (ws ++ s) = py_lstrip isspace s.
Proof.
  induction 1 as [|c ws Hc _ IH]; [reflexivity|].
  cbn [app py_lstrip]. rewrite Hc. exact IH.
Qed.

Lemma lstrip_head (s : pystr) :
  (forall c, head s = Some c -> isspace c = false) -> py_lstrip isspace s = s.
Proof.
  destruct s as [|c s]; [reflexivity|]. intros H. cbn [py_lstrip].
  rewrite (H c eq_refl). reflexivity.
Qed.

(** Stripping on the left does not reach behind a character that is not
    white space. *)
Lemma lstrip_app_cons (x : pystr) (c : N) (y : pystr) :
  isspace c = false ->
  py_lstrip isspace (x ++ c :: y) = py_lstrip isspace x ++ c :: y.
Proof.
  intros Hc. induction x as [|a x IH]; cbn [app py_lstrip].
  - rewrite Hc. reflexivity.
  - destruct (isspace a); [exact IH|reflexivity].
Qed.

Lemma rstrip_app_cons (a : pystr) (c : N) (b : pystr) :
  isspace c = false ->
  py_rstrip isspace (a ++ c :: b) = a ++ c :: py_rstrip isspace b.
Proof.
  intros Hc. unfold py_rstrip.
  rewrite rev_app_distr. cbn [rev]. rewrite <- app_assoc. cbn [app].
  rewrite lstrip_app_cons by exact Hc.
  rewrite rev_app_distr. cbn [rev]. rewrite rev_involutive, <- app_assoc.
  reflexivity.
Qed.

Lemma blank_rev (ws : pystr) : blank isspace ws -> blank isspace (rev ws).
Proof.
  unfold blank. rewrite !Forall_forall. intros H c Hc. apply H.
  apply list_elem_of_In. apply in_rev. apply list_elem_of_In. exact Hc.
Qed.

Lemma rstrip_blank (ws : pystr) : blank isspace ws -> py_rstrip isspace ws = [].
Proof.
  intros H. unfold py_rstrip.
  rewrite <- (app_nil_r (rev ws)), lstrip_blank_app by now apply blank_rev.
  reflexivity.
Qed.

Lemma rstrip_app_blank (s ws : pystr) :
  blank isspace ws -> py_rstrip isspace (s ++ ws) = py_rstrip isspace s.
Proof.
  intros H. unfold py_rstrip. rewrite rev_app_distr.
  rewrite lstrip_blank_app by now apply blank_rev. reflexivity.
Qed.

Lemma last_rev_head (s : pystr) : head (rev s) = last s.
Proof.
  induction s as [|c s IH] using rev_ind; [reflexivity|].
  rewrite rev_app_distr, last_snoc. reflexivity.
Qed.

Lemma rstrip_last (s : pystr) :
  (forall c, last s = Some c -> isspace c = false) -> py_rstrip isspace s = s.
Proof.
  intros H. unfold py_rstrip. rewrite lstrip_head; [apply rev_involutive|].
  intros c Hc. apply H. rewrite <- last_rev_head. exact Hc.
Qed.

(** Stripping removes the white space around a trimmed text, and
    nothing else. *)
Lemma strip_padded (ws1 s ws2 : pystr) :
  blank isspace ws1 -> blank isspace ws2 -> trimmed isspace s ->
  py_strip isspace (ws1 ++ s ++ ws2) = s.
Proof.
  intros H1 H2 [Hh Hl]. unfold py_strip.
  rewrite lstrip_blank_app by exact H1.
  destruct s as [|c s].
  - cbn [app]. rewrite <- (app_nil_r ws2), lstrip_blank_app by exact H2.
    reflexivity.
  - rewrite lstrip_head by (intros c' [= <-]; apply Hh; reflexivity).
    rewrite rstrip_app_blank by exact H2. now apply rstrip_last.
Qed.

Lemma split_first_app (sep : N) (k v : pystr) :
  sep ∉ k -> split_first sep (k ++ sep :: v) = Some (k, v).
Proof.
  induction k as [|c k IH]; intros Hk; cbn [app split_first].
  - rewrite N.eqb_refl. reflexivity.
  - destruct (N.eqb_spec c sep) as [->|_].
    + exfalso. apply Hk. apply elem_of_cons. now left.
    + rewrite IH; [reflexivity|]. intros Hin. apply Hk.
      apply elem_of_cons. now right.
Qed.

(** X23: a line [KEY=VALUE] of [.env], with any white space around the
    line, the key and the value, binds the key to the value, over
    whatever the environment or an earlier line held for the key; the
    value is everything after the first [=], so it may contain [=]. *)
Theorem load_env_assignment (lines : list pystr) (env env1 : gmap pystr pystr)
    (ws1 ws2 ws3 ws4 key value : pystr) :
  isspace 61%N = false ->
  load_env_lines isspace lines env = Some env1 ->
  blank isspace ws1 -> blank isspace ws2 ->
  blank isspace ws3 -> blank isspace ws4 ->
  trimmed isspace key -> trimmed isspace value ->
  key <> [] -> head key <> Some 35%N -> 61%N ∉ key ->
  0%N ∉ key -> 0%N ∉ value ->
  load_env isspace
    (Some (lines ++ [ws1 ++ key ++ ws2 ++ 61%N :: ws3 ++ value ++ ws4])) env
  = Some (<[key := value]> env1).
Proof.
  intros Heq Hlines H1 H2 H3 H4 Hkey Hvalue Hne Hhash Hnoeq Hnul1 Hnul2.
  assert (Hline : load_env_line isspace env1
            (ws1 ++ key ++ ws2 ++ 61%N :: ws3 ++ value ++ ws4)
          = Some (<[key := value]> env1)).
  { unfold load_env_line.
    assert (Hstrip : py_strip isspace
              (ws1 ++ key ++ ws2 ++ 61%N :: ws3 ++ value ++ ws4)
            = (key ++ ws2) ++ 61%N :: py_rstrip isspace (ws3 ++ value)).
    { unfold py_strip. rewrite lstrip_blank_app by exact H1.
      destruct key as [|k0 key]; [congruence|].
      rewrite lstrip_head
        by (intros c [= <-]; apply (proj1 Hkey); reflexivity).
      rewrite (app_assoc (k0 :: key) ws2).
      rewrite rstrip_app_cons by exact Heq.
      rewrite (app_assoc ws3 value ws4), rstrip_app_blank by exact H4.
      reflexivity. }
    rewrite Hstrip.
    assert (Hin : 61%N ∈ (key ++ ws2) ++ 61%N :: py_rstrip isspace (ws3 ++ value)).
    { apply elem_of_app. right. apply elem_of_cons. now left. }
    assert (Hnosep : 61%N ∉ key ++ ws2).
    { intros Hin'. apply elem_of_app in Hin' as [Hin'|Hin']; [auto|].
      unfold blank in H2. rewrite Forall_forall in H2.
      specialize (H2 _ Hin'). congruence. }
    assert (Hstart : startswith
              ((key ++ ws2) ++ 61%N :: py_rstrip isspace (ws3 ++ value))
              (lit "#") = false).
    { destruct key as [|k0 key]; [congruence|].
      change (lit "#") with [35%N]. cbn [app startswith].
      destruct (N.eqb_spec k0 35) as [->|_]; [|reflexivity].
      exfalso. apply Hhash. reflexivity. }
    rewrite Hstart, (bool_decide_eq_true_2 _ Hin).
    rewrite bool_decide_eq_false_2
      by (destruct key; [congruence|discriminate]).
    cbn [negb andb]. rewrite split_first_app by exact Hnosep.
    assert (Hk : py_strip isspace (key ++ ws2) = key).
    { rewrite <- (app_nil_l (key ++ ws2)).
      apply strip_padded; [constructor|exact H2|exact Hkey]. }
    assert (Hv : py_strip isspace (py_rstrip isspace (ws3 ++ value)) = value).
    { destruct value as [|v0 value] using rev_ind.
      - rewrite app_nil_r, rstrip_blank by exact H3. reflexivity.
      - clear IHvalue.
        rewrite rstrip_last.
        + replace (ws3 ++ value ++ [v0]) with (ws3 ++ (value ++ [v0]) ++ [])
            by (rewrite app_nil_r; reflexivity).
          apply strip_padded; [exact H3|constructor|exact Hvalue].
        + intros c Hc. rewrite !app_assoc, last_snoc in Hc.
          injection Hc as <-. apply (proj2 Hvalue). apply last_snoc. }
    rewrite Hk, Hv. unfold environ_set.
    rewrite (bool_decide_eq_false_2 _ Hne), (bool_decide_eq_false_2 _ Hnul1),
      (bool_decide_eq_false_2 _ Hnul2).
    reflexivity. }
  cbn [load_env]. revert env Hlines.
  induction lines as [|raw lines IH]; intros env Hlines; cbn [app load_env_lines] in *.
  - injection Hlines as ->. rewrite Hline. reflexivity.
  - destruct (load_env_line isspace env raw); [|discriminate]. now apply IH.
Qed.

Lemma load_env_line_ignorable (env : gmap pystr pystr) (raw : pystr) :
  ignorable isspace raw = true -> load_env_line isspace env raw = Some env.
Proof.
  unfold ignorable, load_env_line.
  destruct (bool_decide (py_strip isspace raw = [])); [reflexivity|].
  destruct (startswith (py_strip isspace raw) (lit "#")); [reflexivity|].
  destruct (bool_decide (61%N ∈ py_strip isspace raw)); [discriminate|].
  reflexivity.
Qed.

(** X24: blank lines, comment lines and lines without [=] carry no
    meaning: dropping them from [.env] changes neither the environment
    the wrapper ends with nor whether it raises. *)
Theorem load_env_ignores (lines : list pystr) (env : gmap pystr pystr) :
  load_env isspace (Some lines) env
  = load_env isspace
      (Some (List.filter (fun raw => negb (ignorable isspace raw)) lines)) env.
Proof.
  cbn [load_env]. revert env.
  induction lines as [|raw lines IH]; intros env; [reflexivity|].
  cbn [List.filter load_env_lines].
  destruct (ignorable isspace raw) eqn:Hi; cbn [negb].
  - rewrite load_env_line_ignorable by exact Hi. apply IH.
  - cbn [load_env_lines]. destruct (load_env_line isspace env raw);
      [apply IH|reflexivity].
Qed.

End MoreDotEnv.
(* ===================================================================== *)
(** * Worked examples *)
(* ===================================================================== *)

(** The examples run the program with the reference library functions. *)
#[local] Existing Instance Reference.reference_builtins.

(** On volumes 10, 50, 30 and a second 50, the first event of volume 50
    is returned. *)
Lemma find_best_event_first_max_witness :
  let events := [Sample.ev10; Sample.ev50; Sample.ev30; Sample.ev50'] in
  exists i ev k,
    events !! i = Some ev /\
    [Sample.f10; Sample.f50; Sample.f30; Sample.f50] !! i = Some k /\
    find_best_event events = Ok (Some ev) /\
    (forall j kj,
       [Sample.f10; Sample.f50; Sample.f30; Sample.f50] !! j = Some kj -> float_ltb k kj = false) /\
    (forall j kj, (j < i)%nat ->
       [Sample.f10; Sample.f50; Sample.f30; Sample.f50] !! j = Some kj -> float_ltb kj k = true).
Proof.
  refine (proj2 (find_best_event_first_max
            [Sample.ev10; Sample.ev50; Sample.ev30; Sample.ev50'] _ _ _)).
  - vm_compute. reflexivity.
  - repeat constructor.
Defined.

(** C1 as the specification states it fails: next to an event whose
    volume does not parse, the specification selects the event of
    volume 10, the code raises [ValueError]. *)
Lemma find_best_event_invalid_volume :
  spec_select_best [Sample.ev10; Sample.ev_na] = Some Sample.ev10 /\
  find_best_event [Sample.ev10; Sample.ev_na] = Raise ValueError.
Proof. split; vm_compute; reflexivity. Qed.

(** An event that was announced is dropped from a list that contains it. *)
Lemma filter_events_excludes_tweeted_witness :
  filter_events Sample.clock [Sample.ev10; Sample.ev50] Sample.state_b
    = Ok [Sample.ev10] /\
  (event_id Sample.ev50 ∈ tweeted_event_ids Sample.state_b) /\
  Sample.ev50 ∉ [Sample.ev10].
Proof.
  assert (H1 : filter_events Sample.clock [Sample.ev10; Sample.ev50]
                 Sample.state_b = Ok [Sample.ev10])
    by (vm_compute; reflexivity).
  assert (H2 : event_id Sample.ev50 ∈ tweeted_event_ids Sample.state_b)
    by (apply list_elem_of_In; simpl; left; reflexivity).
  exact (conj H1 (conj H2
    (filter_events_excludes_tweeted Sample.clock _ _ _ Sample.ev50 H1 H2))).
Defined.

(** Outside the volumes of the specification the check is still the
    plain comparison: with the minimum at 0, an event of volume -1
    passes every other check and is left out by the volume check. *)
Lemma filter_events_excludes_negative_volume :
  MIN_VOLUME = 0 /\
  (event_id Sample.ev_negative ∉ tweeted_event_ids Sample.fresh_state) /\
  is_sports_event Sample.ev_negative = Ok false /\
  is_crypto_spam Sample.ev_negative = Ok false /\
  is_expired Sample.now Sample.ev_negative = false /\
  volume_key Sample.ev_negative = Ok (S754_finite true 4503599627370496 (-52)) /\
  filter_events Sample.clock [Sample.ev_negative] Sample.fresh_state = Ok [].
Proof.
  repeat split; try (vm_compute; reflexivity).
  intros H. inversion H.
Qed.

(** Of the events of volume 10 and 50, the minimum 11 leaves out the
    first and the minimum 0 keeps both. *)
Lemma filter_events_volume_threshold_witness :
  filter_events_min 11 Sample.clock [Sample.ev10; Sample.ev50]
    Sample.fresh_state = Ok [Sample.ev50] /\
  (Sample.ev10 ∉ [Sample.ev50]) /\
  filter_events_min 0 Sample.clock [Sample.ev10; Sample.ev50]
    Sample.fresh_state = Ok [Sample.ev10; Sample.ev50] /\
  (Sample.ev10 ∈ [Sample.ev10; Sample.ev50]) /\
  (Sample.ev50 ∈ [Sample.ev10; Sample.ev50]).
Proof.
  destruct (filter_events_volume_threshold Sample.clock
              [Sample.ev10; Sample.ev50] Sample.fresh_state) as [Hlow Hzero].
  assert (Hfresh : forall id : pystr, id ∉ tweeted_event_ids Sample.fresh_state)
    by (intros id H; inversion H).
  assert (H11 : filter_events_min 11 Sample.clock [Sample.ev10; Sample.ev50]
                  Sample.fresh_state = Ok [Sample.ev50])
    by (vm_compute; reflexivity).
  assert (H0 : filter_events_min 0 Sample.clock [Sample.ev10; Sample.ev50]
                 Sample.fresh_state = Ok [Sample.ev10; Sample.ev50])
    by (vm_compute; reflexivity).
  split; [exact H11|]. split; [|split; [exact H0|split]].
  - apply (Hlow 11 [Sample.ev50] Sample.ev10 Sample.f10 H11);
      vm_compute; reflexivity.
  - apply (Hzero [Sample.ev10; Sample.ev50] 0%nat Sample.ev10 Sample.f10 H0);
      try (vm_compute; reflexivity).
    apply Hfresh.
  - apply (Hzero [Sample.ev10; Sample.ev50] 1%nat Sample.ev50 Sample.f50 H0);
      try (vm_compute; reflexivity).
    apply Hfresh.
Defined.

(** The announcement of a plain event is returned whole and is short
    enough. *)
Lemma format_tweet_length_witness :
  exists tweet, format_tweet Sample.ev10 = Ok tweet /\ (length tweet <= 280)%nat.
Proof.
  apply (proj2 (format_tweet_length Sample.ev10)
           (lit "Alpha") Sample.f10 (S754_zero false));
    vm_compute; reflexivity.
Defined.

(** A title of 270 characters is cut to 120 characters and three dots;
    under a slug of 300 characters the rendering is cut at 280. *)
Lemma format_tweet_truncation_witness :
  format_tweet Sample.ev_long =
    Ok (render (take 120 Sample.long_title ++ lit "...") (lit "$2K") (lit "$1.5M")
          (lit "https://polymarket.com/event/long-title") footer_short) /\
  format_tweet Sample.ev_tight =
    Ok (take 280 (render (lit "Short title") (lit "$500") (lit "$0")
                    (lit "https://polymarket.com/event/" ++ Sample.long_slug)
                    footer_cta)).
Proof.
  split.
  - refine (proj1 (proj1 (format_tweet_truncation Sample.ev_long
      Sample.long_title (lit "https://polymarket.com/event/long-title")
      (render Sample.long_title (lit "$2K") (lit "$1.5M")
         (lit "https://polymarket.com/event/long-title") footer_cta)
      (S754_finite false 5497558138880000 (-41))
      (S754_finite false 6442450944000000 (-32))
      120 _ _ _ _ _ _ _) _));
      try (vm_compute; reflexivity).
    apply Nat.ltb_lt. vm_compute. reflexivity.
  - refine (proj2 (format_tweet_truncation Sample.ev_tight
      (lit "Short title") (lit "https://polymarket.com/event/" ++ Sample.long_slug)
      (render (lit "Short title") (lit "$500") (lit "$0")
         (lit "https://polymarket.com/event/" ++ Sample.long_slug) footer_cta)
      (S754_finite false 8796093022208000 (-44))
      (S754_zero false)
      (-168) _ _ _ _ _ _ _) _);
      try (vm_compute; reflexivity).
    + apply Nat.ltb_lt. vm_compute. reflexivity.
    + vm_compute. discriminate.
Defined.

(** C4 as the specification states it fails: under a slug of 300
    characters the title 7 gives a full rendering of 446 characters, and
    [format_tweet] returns neither a rendering with a shorter title nor
    the first 280 characters of the full one: [len(title)] raises. *)
Lemma format_tweet_numeric_title :
  py_or (dict_get Sample.ev_numeric_title (lit "title") PNone)
    (PStr (lit "New Event")) = PInt 7 /\
  py_str (PInt 7) = lit "7" /\
  number_field Sample.ev_numeric_title "volume"
    = Ok (S754_finite false 8796093022208000 (-44)) /\
  number_field Sample.ev_numeric_title "liquidity" = Ok (S754_zero false) /\
  length (render (lit "7") (lit "$500") (lit "$0")
            (lit "https://polymarket.com/event/" ++ Sample.long_slug)
            footer_cta) = 446%nat /\
  format_tweet Sample.ev_numeric_title = Raise TypeError.
Proof. repeat split; vm_compute; reflexivity. Qed.

(** An end date in 2020 with a UTC designator has passed in 2025. *)
Lemma is_expired_iff_witness :
  is_expired Sample.now Sample.ev_ended = true.
Proof.
  apply (proj1 (is_expired_iff Sample.now Sample.ev_ended)).
  exists (lit "2020-01-01T00:00:00Z"), 1577836800000000.
  repeat split; try (vm_compute; reflexivity).
  discriminate.
Defined.

(** C8 as the specification states it fails: an end date in 2020
    written without a UTC offset is present, parseable and before the
    current time, and [is_expired] is false. *)
Lemma is_expired_naive_end_date :
  spec_expired Sample.now Sample.ev_ended_naive /\
  is_expired Sample.now Sample.ev_ended_naive = false.
Proof.
  split; [|vm_compute; reflexivity].
  exists (lit "2020-01-01T00:00:00"), (Naive 1577836800000000).
  repeat split; try (vm_compute; reflexivity).
  discriminate.
Qed.

(** A fetch at 09:40:00.5 keeps the two events of 09:35 and 09:34 and
    stops at the event of 09:20; behind it stand an event whose
    [createdAt] is null, an item that is not an object and a recent
    event, none of which is read. *)
Lemma fetch_recent_events_prefix_witness :
  fetch_recent_events Sample.now
    (Body (PList (map PDict [Sample.ev_0935; Sample.ev_0934]
                  ++ PDict Sample.ev_0920
                  :: [PDict Fixture.ev_null_created; PNone;
                      PDict Sample.ev_0935])))
    LOOKBACK_MINUTES
  = Ok [Sample.ev_0935; Sample.ev_0934].
Proof.
  destruct (fetch_recent_events_prefix Sample.now LOOKBACK_MINUTES
              1762248600500000)
    as (_ & _ & _ & _ & _ & _ & _ & Hstop & _).
  - vm_compute. reflexivity.
  - apply (Hstop [Sample.ev_0935; Sample.ev_0934] Sample.ev_0920
             (lit "2025-11-04T09:20:00Z")).
    + repeat constructor; eexists; split; vm_compute; reflexivity.
    + vm_compute. reflexivity.
    + vm_compute. reflexivity.
Defined.

(** C7 as the specification states it fails: at the cutoff 09:30:00.5,
    an event created at 09:30:00.749576 is not older than the cutoff
    and is dropped, and an event created at 09:30:00 is older than the
    cutoff and is kept. *)
Lemma fetch_recent_events_not_chronological :
  cutoff_time Sample.now LOOKBACK_MINUTES = Ok 1762248600500000 /\
  recent_prefix 1762248600500000 [Sample.ev_just_after] = [Sample.ev_just_after] /\
  fetch_recent_events Sample.now (Body (PList [PDict Sample.ev_just_after]))
    LOOKBACK_MINUTES = Ok [] /\
  recent_prefix 1762248600500000 [Sample.ev_just_before] = [] /\
  fetch_recent_events Sample.now (Body (PList [PDict Sample.ev_just_before]))
    LOOKBACK_MINUTES = Ok [Sample.ev_just_before].
Proof. repeat split; vm_compute; reflexivity. Qed.

(** An event without [createdAt] ends the scan: the event of 09:34
    behind it is dropped. *)
Lemma fetch_recent_events_stops_at_missing_created_at_witness :
  fetch_recent_events Sample.now
    (Body (PList (map PDict [Sample.ev_0935] ++ PDict Sample.ev_undated
                    :: [PDict Sample.ev_0934])))
    LOOKBACK_MINUTES
  = Ok [Sample.ev_0935].
Proof.
  refine (proj2 (fetch_recent_events_stops_at_missing_created_at
    Sample.now LOOKBACK_MINUTES 1762248600500000
    [Sample.ev_0935] Sample.ev_undated [PDict Sample.ev_0934] _ _ _)).
  - vm_compute. reflexivity.
  - repeat constructor. eexists. split; vm_compute; reflexivity.
  - vm_compute. reflexivity.
Defined.

(** A rate-limited publish of the untagged market leaves the fresh
    state without announced ids and with no tweet counted. *)
Lemma run_once_publish_failure_witness :
  exists st',
    run_once (Sample.cycle_ending TooManyRequests) Sample.fresh_state = Ok st' /\
    tweeted_event_ids st' = [] /\
    total_tweets_sent st' = 0.
Proof.
  refine (run_once_publish_failure (Sample.cycle_ending TooManyRequests)
            Sample.fresh_state _ _ _ _ _).
  - vm_compute. reflexivity.
  - vm_compute. reflexivity.
Defined.

(** A successful publish on a state that holds 500 ids keeps 500 ids. *)
Lemma run_once_caps_tweeted_ids_witness :
  exists st',
    run_once (Sample.cycle_ending Sent) Sample.full_state = Ok st' /\
    (length (tweeted_event_ids st') <= 500)%nat /\
    length (tweeted_event_ids st')
    = Nat.min 500 (length (tweeted_event_ids Sample.full_state) + 1) /\
    tweeted_event_ids Sample.full_state ++ [lit "t"]
    = take (length (tweeted_event_ids Sample.full_state ++ [lit "t"]) - 500)
        (tweeted_event_ids Sample.full_state ++ [lit "t"])
      ++ tweeted_event_ids st' /\
    total_tweets_sent st' = 501.
Proof.
  refine (run_once_caps_tweeted_ids (Sample.cycle_ending Sent)
            Sample.full_state (lit "t") _ _ _ _).
  - vm_compute. reflexivity.
  - vm_compute. reflexivity.
Defined.

(** The amounts 500, 2500 and 1,500,000 of the specification: 2.5 is
    rounded to the even 2. *)
Example format_number_samples :
  format_number (S754_finite false 8796093022208000 (-44)) = lit "$500" /\
  format_number (S754_finite false 5497558138880000 (-41)) = lit "$2K" /\
  format_number (S754_finite false 6442450944000000 (-32)) = lit "$1.5M".
Proof. repeat split; vm_compute; reflexivity. Qed.

(** Volumes 10, 50, 30 and 50 again: the first event of volume 50; and
    none on the empty list. *)
Example find_best_event_samples :
  find_best_event [Sample.ev10; Sample.ev50; Sample.ev30; Sample.ev50']
    = Ok (Some Sample.ev50) /\
  find_best_event [] = Ok None.
Proof. split; vm_compute; reflexivity. Qed.

(** The basketball game of volume 5000 is filtered out and the untagged
    market of volume 1000 is the one announced. *)
Example plan_cycle_sample :
  filter_events Sample.clock [Sample.ev_game; Sample.ev_market]
    Sample.fresh_state = Ok [Sample.ev_market] /\
  exists text,
    plan_cycle (Sample.cycle_ending Sent) Sample.fresh_state
    = Ok (Publish (lit "t") text None).
Proof. split; [|eexists]; vm_compute; reflexivity. Qed.

(* ===================================================================== *)
(** * Worked examples of the further properties *)
(* ===================================================================== *)

(** The fetch at 09:40:00.5 returns the events of 09:35 and 09:34, a
    prefix of the response. *)
Lemma fetch_recent_events_result_witness :
  exists cutoff,
    cutoff_time Sample.now LOOKBACK_MINUTES = Ok cutoff /\
    Forall (lexically_recent (strftime_Z cutoff)) [Sample.ev_0935; Sample.ev_0934] /\
    Forall (fun ev => ev <> []) [Sample.ev_0935; Sample.ev_0934] /\
    ([Sample.ev_0935; Sample.ev_0934] = [] \/
     exists l,
       Body (PList (map PDict [Sample.ev_0935; Sample.ev_0934; Sample.ev_0920]))
       = Body (PList l) /\
       map PDict [Sample.ev_0935; Sample.ev_0934] `prefix_of` l).
Proof.
  apply (fetch_recent_events_result Sample.now LOOKBACK_MINUTES
           (Body (PList (map PDict [Sample.ev_0935; Sample.ev_0934;
                                    Sample.ev_0920])))).
  vm_compute. reflexivity.
Defined.

(** An event with [createdAt: null] behind a recent event empties the
    result. *)
Lemma fetch_recent_events_malformed_item_witness :
  fetch_recent_events Sample.now
    (Body (PList (map PDict [Sample.ev_0935] ++ PDict Fixture.ev_null_created
                    :: [PDict Sample.ev_0934])))
    LOOKBACK_MINUTES
  = Ok [].
Proof.
  apply (fetch_recent_events_malformed_item Sample.now LOOKBACK_MINUTES
           1762248600500000).
  - vm_compute. reflexivity.
  - repeat constructor. eexists. split; vm_compute; reflexivity.
  - vm_compute. reflexivity.
Defined.

(** Of the game and the market, the market is what the filter keeps. *)
Lemma filter_events_result_witness :
  [Sample.ev_market] `sublist_of` [Sample.ev_game; Sample.ev_market] /\
  forall ev, ev ∈ [Sample.ev_market] ->
    exists j, [Sample.ev_game; Sample.ev_market] !! j = Some ev /\
      passes MIN_VOLUME (list_to_set (tweeted_event_ids Sample.fresh_state))
        (Sample.clock j) ev.
Proof.
  apply (filter_events_result MIN_VOLUME Sample.clock
           [Sample.ev_game; Sample.ev_market] Sample.fresh_state).
  vm_compute. reflexivity.
Defined.

(** Filtering the kept market again keeps it. *)
Lemma filter_events_idempotent_witness :
  filter_events_min MIN_VOLUME (fun _ => Sample.now) [Sample.ev_market]
    Sample.fresh_state
  = Ok [Sample.ev_market].
Proof.
  apply (filter_events_idempotent MIN_VOLUME Sample.now
           [Sample.ev_game; Sample.ev_market]).
  vm_compute. reflexivity.
Defined.

(** Once [t] is announced, the market leaves the result. *)
Lemma filter_events_more_ids_witness :
  filter_events_min MIN_VOLUME Sample.clock [Sample.ev_game; Sample.ev_market]
    Fixture.state_t
  = Ok (filter (fun ev => event_id ev ∉ tweeted_event_ids Fixture.state_t)
          [Sample.ev_market]).
Proof.
  apply (filter_events_more_ids MIN_VOLUME Sample.clock
           [Sample.ev_game; Sample.ev_market] Sample.fresh_state).
  - intros x Hx. inversion Hx.
  - vm_compute. reflexivity.
Defined.

(** An event with [series: null] behind the market makes the filter
    raise. *)
Lemma filter_events_null_series_witness :
  filter_events_min MIN_VOLUME Sample.clock
    ([Sample.ev_market] ++ Fixture.ev_null_series :: []) Sample.fresh_state
  = if bool_decide (event_id Fixture.ev_null_series
                    ∈ tweeted_event_ids Sample.fresh_state)
    then
      (let* r2 := filter_loop MIN_VOLUME
                    (list_to_set (tweeted_event_ids Sample.fresh_state))
                    Sample.clock (S (length [Sample.ev_market])) [] in
       Ok ([Sample.ev_market] ++ r2))
    else Raise TypeError.
Proof.
  apply (filter_events_null_series MIN_VOLUME Sample.clock [Sample.ev_market] []
           Fixture.ev_null_series Sample.fresh_state [Sample.ev_market]).
  - vm_compute. reflexivity.
  - vm_compute. reflexivity.
Defined.

(** The event selected from four is one of the four. *)
Lemma find_best_event_member_witness :
  Sample.ev50 ∈ [Sample.ev10; Sample.ev50; Sample.ev30; Sample.ev50'].
Proof.
  apply (find_best_event_member
           [Sample.ev10; Sample.ev50; Sample.ev30; Sample.ev50']
           (Some Sample.ev50)).
  vm_compute. reflexivity.
Defined.

(** The market the sample iteration publishes is new to the default
    state. *)
Lemma plan_cycle_publishes_new_event_witness :
  (lit "t" ∉ tweeted_event_ids Sample.fresh_state) /\
  (length Fixture.market_text <= 280)%nat /\
  exists events best j,
    fetch_recent_events (fetch_time (Sample.cycle_ending Sent))
      (fetch_response (Sample.cycle_ending Sent)) LOOKBACK_MINUTES
      = Ok events /\
    events !! j = Some best /\
    lit "t" = event_id best /\
    passes MIN_VOLUME (list_to_set (tweeted_event_ids Sample.fresh_state))
      (filter_clock (Sample.cycle_ending Sent) j) best.
Proof.
  apply (plan_cycle_publishes_new_event (Sample.cycle_ending Sent)
           Sample.fresh_state (lit "t") Fixture.market_text None).
  vm_compute. reflexivity.
Defined.

(** The sample iteration writes its poll time, 09:40:02.5. *)
Lemma run_once_records_poll_witness :
  last_poll_time Fixture.state_after
  = Some (isoformat (poll_time (Sample.cycle_ending Sent))).
Proof.
  apply (run_once_records_poll (Sample.cycle_ending Sent) Sample.fresh_state).
  vm_compute. reflexivity.
Defined.

(** The sample iteration appends [t] and counts one tweet. *)
Lemma run_once_step_witness :
  (tweeted_event_ids Fixture.state_after = tweeted_event_ids Sample.fresh_state /\
   total_tweets_sent Fixture.state_after = total_tweets_sent Sample.fresh_state) \/
  exists id,
    (id ∉ tweeted_event_ids Sample.fresh_state) /\
    tweeted_event_ids Fixture.state_after
    = last_n 500 (tweeted_event_ids Sample.fresh_state ++ [id]) /\
    total_tweets_sent Fixture.state_after
    = total_tweets_sent Sample.fresh_state + 1.
Proof.
  apply (run_once_step (Sample.cycle_ending Sent)).
  vm_compute. reflexivity.
Defined.

(** An iteration whose request fails returns the state with the poll
    time written. *)
Lemma run_once_fetch_failure_witness :
  run_once Fixture.cycle_offline Fixture.state_t
  = Ok (record_poll Fixture.cycle_offline Fixture.state_t).
Proof.
  apply run_once_fetch_failure.
  - vm_compute. split; discriminate.
  - left. reflexivity.
Defined.

(** After the sample iteration the ids are still distinct. *)
Lemma run_once_NoDup_witness : NoDup (tweeted_event_ids Fixture.state_after).
Proof.
  apply (run_once_NoDup (Sample.cycle_ending Sent) Sample.fresh_state).
  - constructor.
  - vm_compute. reflexivity.
Defined.

(** Two turns that see the same market announce it once. *)
Lemma main_NoDup_witness :
  NoDup (tweeted_event_ids
           (main Fixture.setup_live Sample.fresh_state
              [Sample.cycle_ending Sent; Sample.cycle_ending Sent])).
Proof.
  apply main_NoDup. constructor.
Defined.

(** Without credentials the market is recorded though nothing is sent. *)
Lemma main_dry_run_records_witness :
  main Fixture.setup_bare Sample.fresh_state [Sample.cycle_ending TooManyRequests]
  = record_poll (Sample.cycle_ending TooManyRequests)
      (mark_tweeted Sample.fresh_state (lit "t")).
Proof.
  apply (main_dry_run_records Fixture.setup_bare
           (Sample.cycle_ending TooManyRequests) Sample.fresh_state
           (lit "t") Fixture.market_text None).
  - vm_compute. reflexivity.
  - vm_compute. reflexivity.
Defined.

(** With a download that fails, the call with an image is the call
    without. *)
Lemma send_tweet_with_image_image_failure_witness :
  send_tweet_with_image (Sample.api_ending Sent) true true Fixture.market_text
    (Some (lit "https://host/i.png"))
  = send_tweet_with_image (Sample.api_ending Sent) true true Fixture.market_text
      None.
Proof.
  apply send_tweet_with_image_image_failure. left. reflexivity.
Defined.

(** The announcement with the cut title keeps the header. *)
Lemma format_tweet_header_witness :
  take 25
    (render (take 120 Sample.long_title ++ lit "...") (lit "$2K") (lit "$1.5M")
       (lit "https://polymarket.com/event/long-title") footer_short)
  = header.
Proof.
  apply (format_tweet_header Sample.ev_long). vm_compute. reflexivity.
Defined.

(** The announcement of a plain event is its full rendering. *)
Lemma format_tweet_fits_witness :
  format_tweet Sample.ev10
  = Ok (render (lit "Alpha") (lit "$10") (lit "$0")
          (lit "https://polymarket.com/event/a") footer_cta).
Proof.
  apply (format_tweet_fits Sample.ev10 Sample.f10 (S754_zero false)).
  - vm_compute. reflexivity.
  - vm_compute. reflexivity.
  - vm_compute. reflexivity.
  - apply Nat.leb_le. vm_compute. reflexivity.
Defined.


(** Behind a comment and a blank line, the line
    [ X_API_KEY = abc=123 ] binds [X_API_KEY] to [abc=123]. *)
Lemma load_env_assignment_witness :
  load_env Reference.is_space
    (Some (Fixture.env_head ++
           [lit " " ++ lit "X_API_KEY" ++ lit " " ++ 61%N :: lit " "
              ++ lit "abc=123" ++ (lit " " ++ nl)]))
    ∅
  = Some (<[lit "X_API_KEY" := lit "abc=123"]> ∅).
Proof.
  apply (load_env_assignment Reference.is_space Fixture.env_head ∅ ∅).
  - reflexivity.
  - vm_compute. reflexivity.
  - repeat constructor.
  - repeat constructor.
  - repeat constructor.
  - repeat constructor.
  - split; intros c Hc; vm_compute in Hc; injection Hc as <-; reflexivity.
  - split; intros c Hc; vm_compute in Hc; injection Hc as <-; reflexivity.
  - discriminate.
  - discriminate.
  - intros Hin. apply list_elem_of_In in Hin. vm_compute in Hin.
    intuition discriminate.
  - intros Hin. apply list_elem_of_In in Hin. vm_compute in Hin.
    intuition discriminate.
  - intros Hin. apply list_elem_of_In in Hin. vm_compute in Hin.
    intuition discriminate.
Defined.

(** The clients of the two sample processes, and the image of the
    sample event. *)
Example get_twitter_clients_samples :
  get_twitter_clients Fixture.setup_bare = (false, false) /\
  get_twitter_clients Fixture.setup_live = (true, true) /\
  get_event_image_url Fixture.ev_icon = Some (lit "https://host/i.png").
Proof. repeat split; vm_compute; reflexivity. Qed.
